(** * Aido.ReachOut: the orchestration-and-normalization core

    A shallow embedding of the Google Maps business scraper's pure core
    ([business.py], [helpers.py], [settings.py], the result wrapper of
    [playwright_scraper.py] and the orchestrator of [main.py]) together
    with the properties its specification states about it.

    Modelling conventions.
    - Python [str] is [string]; the model is restricted to ASCII text, so
      [str.isdigit] is membership in '0'..'9' and [str.lower] maps 'A'..'Z'.
    - Python [float] is idealised as an exact rational ([Q]): rounding,
      infinities and NaN are outside the model.  Float equality [==] is
      [Qeq]; of the arithmetic exceptions only [ZeroDivisionError] remains.
    - A global name is looked up among the names that the module binds;
      a name that is not bound there raises [NameError] at the point where
      the source evaluates it.
    - Python [int] is [Z].
    - The browser session behind [PlaywrightScraper] is an oracle indexed by
      the number of searches dispatched so far; the orchestrator threads the
      log of dispatched searches explicitly. *)

From Stdlib Require Import List String Ascii Bool Arith ZArith QArith Qround Lia Lqa.
Import ListNotations.

(* ================================================================== *)
(** * Python built-ins used by the sources                              *)
(* ================================================================== *)

Module Py.

Local Open Scope string_scope.

(** [c.isdigit()] on ASCII text. *)
Definition isdigit (c : ascii) : bool :=
  let n := nat_of_ascii c in (48 <=? n)%nat && (n <=? 57)%nat.

(** [''.join(filter(pred, s))]. *)
Fixpoint filter (pred : ascii -> bool) (s : string) : string :=
  match s with
  | EmptyString => EmptyString
  | String c rest => if pred c then String c (filter pred rest) else filter pred rest
  end.

(** [s.startswith(p)]. *)
Fixpoint startswith (s p : string) {struct p} : bool :=
  match p with
  | EmptyString => true
  | String a p' =>
      match s with
      | EmptyString => false
      | String b s' => Ascii.eqb b a && startswith s' p'
      end
  end.

(** [s[n:]]. *)
Fixpoint slice_from (n : nat) (s : string) : string :=
  match n, s with
  | O, _ => s
  | S k, EmptyString => EmptyString
  | S k, String _ rest => slice_from k rest
  end.

(** [s[a:b]] for [0 <= a <= b]. *)
Definition slice (a b : nat) (s : string) : string := String.substring a (b - a) s.

(** [c.lower()] on ASCII text. *)
Definition lower_char (c : ascii) : ascii :=
  let n := nat_of_ascii c in
  if (65 <=? n)%nat && (n <=? 90)%nat then ascii_of_nat (n + 32) else c.

(** [s.lower()]. *)
Fixpoint lower (s : string) : string :=
  match s with
  | EmptyString => EmptyString
  | String c rest => String (lower_char c) (lower rest)
  end.

(** [x in xs] for a list of strings. *)
Definition str_in (x : string) (xs : list string) : bool :=
  existsb (String.eqb x) xs.

(** [d.get(k, None)] for a dict literal with string keys, kept in source
    order. *)
Fixpoint dict_get {V : Type} (d : list (string * V)) (k : string) : option V :=
  match d with
  | [] => None
  | (k', v) :: rest => if String.eqb k' k then Some v else dict_get rest k
  end.

(** [range(a, b)]. *)
Definition range (a b : Z) : list Z :=
  map (fun k => (a + Z.of_nat k)%Z) (seq 0 (Z.to_nat (b - a))).

(** [l[:n]]: a negative bound counts from the end. *)
Definition slice_to {A : Type} (n : Z) (l : list A) : list A :=
  if (0 <=? n)%Z then firstn (Z.to_nat n) l
  else firstn (Z.to_nat (Z.of_nat (List.length l) + n)) l.

(** [len(l)]. *)
Definition len {A : Type} (l : list A) : Z := Z.of_nat (List.length l).

(** Exceptions that the modelled code can raise. *)
Inductive exn : Type :=
| ZeroDivisionError
| ValueError
| TypeError
| NameError.

(** A computation that returns a value or raises. *)
Inductive result (A : Type) : Type :=
| Ok (a : A)
| Raise (e : exn).

Arguments Ok {A} a.
Arguments Raise {A} e.

Definition bind {A B : Type} (m : result A) (k : A -> result B) : result B :=
  match m with
  | Ok a => k a
  | Raise e => Raise e
  end.

(** Evaluating the global name [name] in a module that binds [bound] (no
    built-in is called like any of the names looked up this way). *)
Definition load_global (bound : list string) (name : string) : result unit :=
  if str_in name bound then Ok tt else Raise NameError.

(** [s.isascii()]. *)
Definition isascii (s : string) : bool :=
  forallb (fun c => (nat_of_ascii c <? 128)%nat) (list_ascii_of_string s).

(** [a / b] on floats. *)
Definition truediv (a b : Q) : result Q :=
  if Qeq_bool b 0 then Raise ZeroDivisionError else Ok (a / b)%Q.

(** [math.sqrt(x) <= y]: the exact root of [x >= 0] is compared through
    its square. *)
Definition sqrt_le (x y : Q) : bool :=
  Qle_bool 0 y && Qle_bool x (y * y)%Q.

(** [c.isspace()] on ASCII text: tab to carriage return, the four
    separators 28 to 31, and the space. *)
Definition isspace (c : ascii) : bool :=
  let n := nat_of_ascii c in
  ((9 <=? n)%nat && (n <=? 13)%nat) || ((28 <=? n)%nat && (n <=? 32)%nat).

(** [s.lstrip()]. *)
Fixpoint lstrip (s : string) : string :=
  match s with
  | EmptyString => EmptyString
  | String c rest => if isspace c then lstrip rest else s
  end.

(** [s.rstrip()]. *)
Fixpoint rstrip (s : string) : string :=
  match s with
  | EmptyString => EmptyString
  | String c rest =>
      match rstrip rest with
      | EmptyString => if isspace c then EmptyString else String c EmptyString
      | kept => String c kept
      end
  end.

(** [s.strip()]. *)
Definition strip (s : string) : string := rstrip (lstrip s).

End Py.

Notation "'do' x <- m ; k" := (Py.bind m (fun x => k))
  (at level 10, x name, m at level 100, k at level 200).

(* ================================================================== *)
(** * A backtracking matcher for the fragment of [re] the sources use   *)
(* ================================================================== *)

Module Re.

(** Regular expressions: the empty pattern, literals, bracket classes
    given as inclusive ranges, concatenation, ordered alternation and
    bounded repetition [r{n}]. *)
Inductive regex : Type :=
| Eps
| Lit (c : ascii)
| Class (ranges : list (ascii * ascii))
| Seq (r1 r2 : regex)
| Alt (r1 r2 : regex)
| Repeat (n : nat) (r : regex).

Definition in_range (c : ascii) (r : ascii * ascii) : bool :=
  (nat_of_ascii (fst r) <=? nat_of_ascii c)%nat &&
  (nat_of_ascii c <=? nat_of_ascii (snd r))%nat.

Definition in_class (c : ascii) (ranges : list (ascii * ascii)) : bool :=
  existsb (in_range c) ranges.

(** A literal string as a concatenation of literals. *)
Fixpoint lit (s : string) : regex :=
  match s with
  | EmptyString => Eps
  | String c rest => Seq (Lit c) (lit rest)
  end.

(** [rmatch r s]: the suffixes left after each way of matching [r] at the
    head of [s], in the order a backtracking engine tries them. *)
Fixpoint rmatch (r : regex) (s : list ascii) : list (list ascii) :=
  match r with
  | Eps => [s]
  | Lit c =>
      match s with
      | x :: t => if Ascii.eqb x c then [t] else []
      | [] => []
      end
  | Class ranges =>
      match s with
      | x :: t => if in_class x ranges then [t] else []
      | [] => []
      end
  | Seq r1 r2 => flat_map (rmatch r2) (rmatch r1 s)
  | Alt r1 r2 => rmatch r1 s ++ rmatch r2 s
  | Repeat n r1 => Nat.iter n (fun acc => flat_map (rmatch r1) acc) [s]
  end.

(** The text consumed by the first successful match at the head of [s]. *)
Definition match_here (r : regex) (s : list ascii) : option (list ascii) :=
  match rmatch r s with
  | rest :: _ => Some (firstn (List.length s - List.length rest) s)
  | [] => None
  end.

(** Left-to-right scan for non-overlapping matches; [skip] counts the
    characters still covered by the previous match. *)
Fixpoint scan (r : regex) (s : list ascii) (skip : nat) : list (list ascii) :=
  match s with
  | [] =>
      match skip, match_here r [] with
      | O, Some m => [m]
      | _, _ => []
      end
  | _ :: t =>
      match skip with
      | S k => scan r t k
      | O =>
          match match_here r s with
          | Some m => m :: scan r t (List.length m - 1)
          | None => scan r t 0
          end
      end
  end.

(** [re.findall(pattern, text)] for a pattern whose single group spans the
    whole match. *)
Definition findall (r : regex) (text : string) : list string :=
  map string_of_list_ascii (scan r (list_ascii_of_string text) 0).

End Re.

(* ================================================================== *)
(** * business.py: the result model                                     *)
(* ================================================================== *)

Module Models.

Local Open Scope string_scope.

(** [class Location]. *)
Record Location : Type := mkLocation {
  latitude : Q;
  longitude : Q;
  address : option string;
  city : option string;
  district : option string;
  country : string
}.

(** [Location(latitude=.., longitude=.., city=.., district=..)] with the
    dataclass defaults for the remaining fields. *)
Definition Location_new (lat lng : Q) (addr cty dst : option string) : Location :=
  mkLocation lat lng addr cty dst "Sri Lanka".

(** [class PhoneNumber]. *)
Record PhoneNumber : Type := mkPhoneNumber {
  number : string;
  is_mobile : option bool;
  is_validated : bool;
  region : option string
}.

(** The predicate of the filter in [PhoneNumber.__post_init__]. *)
Definition keep_char (x : ascii) : bool := Py.isdigit x || Ascii.eqb x "+".

(** [PhoneNumber.__post_init__] as a function on the [number] field. *)
Definition post_init_number (raw : string) : string :=
  let number := Py.filter keep_char raw in
  if Py.startswith number "0" then "+94" ++ Py.slice_from 1 number
  else if negb (Py.startswith number "+") then "+94" ++ number
  else number.

(** Constructing a [PhoneNumber]: the dataclass stores the fields and then
    runs [__post_init__]. *)
Definition PhoneNumber_new (raw : string) (mobile : option bool)
    (validated : bool) (reg : option string) : PhoneNumber :=
  mkPhoneNumber (post_init_number raw) mobile validated reg.

(** [PhoneNumber.to_local_format]. *)
Definition to_local_format (p : PhoneNumber) : string :=
  if Py.startswith (number p) "+94" then "0" ++ Py.slice_from 3 (number p)
  else number p.


(** [class Business]; [extracted_at] is the clock reading at construction. *)
Record Business : Type := mkBusiness {
  name : string;
  phone_numbers : list PhoneNumber;
  location : option Location;
  website : option string;
  category : option string;
  rating : option Q;
  reviews_count : option Z;
  place_id : option string;
  hours : option (list (string * string));
  extracted_at : Z
}.

(** [Business.add_phone_number]. *)
Definition add_phone_number (b : Business) (raw : string) : Business :=
  mkBusiness (name b)
    (phone_numbers b ++ [PhoneNumber_new raw None false None])%list
    (location b) (website b) (category b) (rating b) (reviews_count b)
    (place_id b) (hours b) (extracted_at b).

(** [class SearchParameters]. *)
Record SearchParameters : Type := mkSearchParameters {
  query : string;
  sp_location : option Location;
  radius_km : Q;
  language : string;
  max_results : Z
}.

(** [SearchParameters(query=.., location=.., radius_km=.., max_results=..)]. *)
Definition SearchParameters_new (q : string) (loc : option Location)
    (radius : Q) (maxr : Z) : SearchParameters :=
  mkSearchParameters q loc radius "en" maxr.

(** [class SearchResult]. *)
Record SearchResult : Type := mkSearchResult {
  parameters : SearchParameters;
  businesses : list Business;
  total_found : Z;
  success : bool;
  error_message : option string;
  search_time : Q
}.

(** [SearchResult(parameters=params)]. *)
Definition SearchResult_new (params : SearchParameters) : SearchResult :=
  mkSearchResult params [] 0 true None 0.

(** [SearchResult.add_business]. *)
Definition add_business (r : SearchResult) (b : Business) : SearchResult :=
  let bs := (businesses r ++ [b])%list in
  mkSearchResult (parameters r) bs (Py.len bs) (success r) (error_message r)
    (search_time r).

End Models.

(* ================================================================== *)
(** * helpers.py: the phone canonicalizer                               *)
(* ================================================================== *)

Module Helpers.

Import Re.
Local Open Scope string_scope.

(** [\d] on ASCII text. *)
Definition digit : regex := Class [("0"%char, "9"%char)].

(** [(?:\+94|0)], followed by [k]. *)
Definition sl_prefix (k : regex) : regex :=
  Seq (Alt (lit "+94") (Lit "0")) k.

(** [SL_MOBILE_PATTERN = r'(?:\+94|0)7[0-2,4-8]\d{7}']; the bracket class
    holds the ranges 0-2 and 4-8 and the comma. *)
Definition SL_MOBILE_PATTERN : regex :=
  sl_prefix (Seq (Lit "7")
    (Seq (Class [("0"%char, "2"%char); (","%char, ","%char); ("4"%char, "8"%char)])
         (Repeat 7 digit))).

(** [SL_LANDLINE_PATTERN = r'(?:\+94|0)(?:[1-9][0-9])\d{6}']. *)
Definition SL_LANDLINE_PATTERN : regex :=
  sl_prefix (Seq (Seq (Class [("1"%char, "9"%char)]) (Class [("0"%char, "9"%char)]))
                 (Repeat 6 digit)).

(** [SL_GENERAL_PATTERN = r'(?:\+94|0)\d{9}']. *)
Definition SL_GENERAL_PATTERN : regex :=
  sl_prefix (Repeat 9 digit).

(** The filter predicate [lambda x: x.isdigit() or x == '+']. *)
Definition keep_char (x : ascii) : bool := Py.isdigit x || Ascii.eqb x "+".

(** The normalisation shared by [extract_phone_numbers] and
    [validate_sri_lankan_phone]. *)
Definition normalize (raw : string) : string :=
  let number := Py.filter keep_char raw in
  if Py.startswith number "0" then "+94" ++ Py.slice_from 1 number
  else if negb (Py.startswith number "+") then "+94" ++ number
  else number.

(** [extract_phone_numbers]. *)
Definition extract_phone_numbers (text : string) : list string :=
  let pattern := Alt SL_MOBILE_PATTERN (Alt SL_LANDLINE_PATTERN SL_GENERAL_PATTERN) in
  let matches := findall pattern text in
  map normalize matches.

(** The metadata dictionary returned by [validate_sri_lankan_phone]. *)
Inductive Metadata : Type :=
| MetaError (error : string)
| MetaPhone (is_mobile : bool) (region : option string)
            (normalized local_format : string).

Definition mobile_prefixes : list string :=
  ["70"; "71"; "72"; "74"; "75"; "76"; "77"; "78"].

Definition landline_regions : list (string * string) :=
  [("11", "Colombo"); ("33", "Gampaha"); ("34", "Kalutara"); ("81", "Kandy");
   ("66", "Matale"); ("52", "Nuwara Eliya"); ("91", "Galle"); ("41", "Matara");
   ("47", "Hambantota"); ("21", "Jaffna/Kilinochchi"); ("23", "Mannar");
   ("24", "Vavuniya/Mullaitivu"); ("65", "Batticaloa"); ("63", "Ampara");
   ("26", "Trincomalee"); ("37", "Kurunegala"); ("32", "Puttalam");
   ("25", "Anuradhapura"); ("27", "Polonnaruwa"); ("55", "Badulla/Monaragala");
   ("45", "Ratnapura"); ("35", "Kegalle")].

(** [validate_sri_lankan_phone]. *)
Definition validate_sri_lankan_phone (phone : string) : bool * Metadata :=
  let number := normalize phone in
  if negb (Py.startswith number "+94" && (String.length number =? 12)%nat) then
    (false, MetaError "Invalid length or country code")
  else
    let prefix := Py.slice 3 5 number in
    let is_mobile := Py.str_in prefix mobile_prefixes in
    let region := Py.dict_get landline_regions prefix in
    (true, MetaPhone is_mobile region number ("0" ++ Py.slice_from 3 number)).

(** [math.pi], the double nearest to pi, as an exact rational. *)
Definition math_pi : Q := 884279719003555 # 281474976710656.

(** A search cell [(lat, lng, radius)]. *)
Definition Cell : Type := (Q * Q * Q)%type.

(** The names bound in [helpers.py] when its functions run: the imports
    of the module, its logger, its patterns and its functions (the names
    that every module has, such as [__name__], are left out).  The module
    has no [import math]. *)
Definition module_names : list string :=
  ["re"; "logging"; "random"; "time";
   "Dict"; "List"; "Optional"; "Tuple"; "Union"; "Path";
   "json"; "csv"; "datetime";
   "Business"; "PhoneNumber"; "Location"; "SearchResult";
   "logger"; "SL_MOBILE_PATTERN"; "SL_LANDLINE_PATTERN"; "SL_GENERAL_PATTERN";
   "extract_phone_numbers"; "validate_sri_lankan_phone"; "random_delay";
   "get_random_user_agent"; "save_results"; "subdivide_area";
   "is_within_sri_lanka"; "get_district_from_coordinates"].

(** The part of [subdivide_area] after its early return: the lattice of
    cells of radius [max_radius_km] laid over the original disc.  Its
    first statement evaluates [math.pi], and so looks up [math]. *)
Definition subdivide_lattice (center_lat center_lng radius_km max_radius_km : Q)
    : Py.result (list Cell) :=
  let earth_radius : Q := 6371 in
  do math <- Py.load_global module_names "math" ;
  let radius_deg := (radius_km / (earth_radius * math_pi / 180))%Q in
  let max_radius_deg := (max_radius_km / (earth_radius * math_pi / 180))%Q in
  do ratio <- Py.truediv radius_deg max_radius_deg ;
  let grid_size := (Qceiling ratio * 2)%Z in
  let lattice := Py.range (- grid_size / 2)%Z (grid_size / 2 + 1)%Z in
  Py.Ok
    (flat_map (fun i =>
       flat_map (fun j =>
         let lat := (center_lat + inject_Z i * max_radius_deg)%Q in
         let lng := (center_lng + inject_Z j * max_radius_deg)%Q in
         let squares := ((lat - center_lat) ^ 2 + (lng - center_lng) ^ 2)%Q in
         if Py.sqrt_le squares radius_deg then [(lat, lng, max_radius_km)]
         else [])
       lattice)
     lattice).

(** [subdivide_area]. *)
Definition subdivide_area (center_lat center_lng radius_km max_radius_km : Q)
    : Py.result (list Cell) :=
  if Qle_bool radius_km max_radius_km then
    Py.Ok [(center_lat, center_lng, radius_km)]
  else
    subdivide_lattice center_lat center_lng radius_km max_radius_km.

(** [is_within_sri_lanka]. *)
Definition is_within_sri_lanka (lat lng : Q) : bool :=
  let north : Q := 99 # 10 in
  let south : Q := 59 # 10 in
  let east : Q := 82 in
  let west : Q := 795 # 10 in
  (Qle_bool south lat && Qle_bool lat north) &&
  (Qle_bool west lng && Qle_bool lng east).

(** [get_district_from_coordinates]. *)
Definition get_district_from_coordinates (lat lng : Q) : option string :=
  if Qle_bool (67 # 10) lat && Qle_bool lat 7 &&
     (Qle_bool (798 # 10) lng && Qle_bool lng 80) then Some "Colombo"
  else if Qle_bool (71 # 10) lat && Qle_bool lat (75 # 10) &&
          (Qle_bool (805 # 10) lng && Qle_bool lng (808 # 10)) then Some "Kandy"
  else if Qle_bool (59 # 10) lat && Qle_bool lat (62 # 10) &&
          (Qle_bool (801 # 10) lng && Qle_bool lng (803 # 10)) then Some "Galle"
  else None.

End Helpers.

(* ================================================================== *)
(** * settings.py: the configuration                                    *)
(* ================================================================== *)

Module Settings.

Local Open Scope string_scope.

(** An entry of [major_cities]. *)
Record City : Type := mkCity {
  city_name : string;
  city_lat : Q;
  city_lng : Q
}.

(** The configuration entries the core reads. *)
Record Config : Type := mkConfig {
  default_radius : Q;
  subdivision_threshold : Q;
  major_cities : list City;
  districts : list string;
  max_results_per_query : Z;
  headless : bool;
  stealth_mode : bool;
  mobile_prefixes : list string;
  landline_prefixes : list (string * string)
}.

(** [DEFAULT_CONFIG]. *)
Definition DEFAULT_CONFIG : Config := {|
  default_radius := 5;
  subdivision_threshold := 20;
  major_cities :=
    [ mkCity "Colombo" (69271 # 10000) (798612 # 10000);
      mkCity "Kandy" (72906 # 10000) (806337 # 10000);
      mkCity "Galle" (60535 # 10000) (802210 # 10000);
      mkCity "Jaffna" (96615 # 10000) (800255 # 10000);
      mkCity "Batticaloa" (77170 # 10000) (817000 # 10000) ];
  districts :=
    [ "Ampara"; "Anuradhapura"; "Badulla"; "Batticaloa"; "Colombo";
      "Galle"; "Gampaha"; "Hambantota"; "Jaffna"; "Kalutara";
      "Kandy"; "Kegalle"; "Kilinochchi"; "Kurunegala"; "Mannar";
      "Matale"; "Matara"; "Monaragala"; "Mullaitivu"; "Nuwara Eliya";
      "Polonnaruwa"; "Puttalam"; "Ratnapura"; "Trincomalee"; "Vavuniya" ];
  max_results_per_query := 120;
  headless := true;
  stealth_mode := true;
  mobile_prefixes := ["70"; "71"; "72"; "74"; "75"; "76"; "77"; "78"];
  landline_prefixes :=
    [ ("Colombo", "11"); ("Gampaha", "33"); ("Kalutara", "34"); ("Kandy", "81");
      ("Matale", "66"); ("Nuwara Eliya", "52"); ("Galle", "91"); ("Matara", "41");
      ("Hambantota", "47"); ("Jaffna", "21"); ("Kilinochchi", "21");
      ("Mannar", "23"); ("Vavuniya", "24"); ("Mullaitivu", "24");
      ("Batticaloa", "65"); ("Ampara", "63"); ("Trincomalee", "26");
      ("Kurunegala", "37"); ("Puttalam", "32"); ("Anuradhapura", "25");
      ("Polonnaruwa", "27"); ("Badulla", "55"); ("Monaragala", "55");
      ("Ratnapura", "45"); ("Kegalle", "35") ]
|}.

(** [get_config]: the user configuration is never merged in. *)
Definition get_config : Config := DEFAULT_CONFIG.

End Settings.

(* ================================================================== *)
(** * playwright_scraper.py: the extraction collaborator                *)
(* ================================================================== *)

Module Scraper.

Import Models.

(** What one browser session yields: the list accumulated by the scroll
    loop of [_extract_businesses], or the exception caught by
    [search_businesses]. *)
Inductive PageOutcome : Type :=
| Extracted (feed : list Business)
| Failed (message : string).

Record Session : Type := mkSession {
  outcome : PageOutcome;
  elapsed : Q
}.

(** The browser: what the [k]-th search dispatched in this run yields for
    the given parameters. *)
Definition Browser : Type := nat -> SearchParameters -> Session.

(** The searches dispatched so far, oldest first. *)
Definition World : Type := list SearchParameters.

(** The result object that [search_businesses] builds when it is the
    [k]-th search dispatched: the feed cut by [businesses[:max_results]] and
    added one by one, or the failure recorded by the [except] branch. *)
Definition session_result (page : Browser) (k : nat) (params : SearchParameters)
    : SearchResult :=
  let session := page k params in
  let result := SearchResult_new params in
  let result :=
    match outcome session with
    | Extracted feed =>
        fold_left add_business (Py.slice_to (max_results params) feed) result
    | Failed message =>
        mkSearchResult (parameters result) (businesses result)
          (total_found result) false (Some message) (search_time result)
    end in
  mkSearchResult (parameters result) (businesses result) (total_found result)
    (success result) (error_message result) (elapsed session).

(** [PlaywrightScraper.search_businesses], in a fresh browser session; the
    search is appended to the log. *)
Definition search_businesses (page : Browser) (params : SearchParameters)
    (w : World) : SearchResult * World :=
  (session_result page (List.length w) params, (w ++ [params])%list).

(** ** Extraction of the listings of one search *)

Local Open Scope string_scope.

(** What the details panel of one listing shows when it is read: the texts
    and attributes found, already parsed where the source parses them
    ([float], [int], the coordinates in the page address).  A part that is
    absent, or that was not reached because an earlier step raised inside
    [_extract_business_details], is [None]. *)
Record Details : Type := mkDetails {
  d_category : option string;
  d_rating : option Q;
  d_reviews_count : option Z;
  d_phone_text : option string;
  d_website : option string;
  d_address : option string;
  d_coords : option (Q * Q)
}.

(** One entry of the result feed. *)
Inductive ResultItem : Type :=
| Untitled
| Unopened (title : string)
| Opened (title : string) (clock : Z) (details : Details).

(** [Business(name=business_name)], the clock giving [extracted_at]. *)
Definition Business_new (business_name : string) (clock : Z) : Business :=
  mkBusiness business_name [] None None None None None None None clock.

(** The phone part of [_extract_business_details]: every candidate found in
    the phone text is validated, and the valid ones become phone numbers. *)
Definition phones_from_text (phone_text : string) : list PhoneNumber :=
  flat_map
    (fun phone =>
       match Helpers.validate_sri_lankan_phone phone with
       | (true, Helpers.MetaPhone is_mobile region normalized _) =>
           [PhoneNumber_new normalized (Some is_mobile) true region]
       | _ => []
       end)
    (Helpers.extract_phone_numbers phone_text).

(** [_extract_business_details]. *)
Definition _extract_business_details (business : Business) (details : Details)
    : Business :=
  mkBusiness (name business)
    (phone_numbers business ++
     match d_phone_text details with
     | Some text => phones_from_text (Py.strip text)
     | None => []
     end)%list
    (match d_address details, d_coords details with
     | Some address_text, Some (lat, lng) =>
         Some (Location_new lat lng (Some address_text) None
                 (Helpers.get_district_from_coordinates lat lng))
     | _, _ => location business
     end)
    (match d_website details with
     | Some href => Some href
     | None => website business
     end)
    (match d_category details with
     | Some text => Some (Py.strip text)
     | None => category business
     end)
    (match d_rating details with
     | Some value => Some value
     | None => rating business
     end)
    (match d_reviews_count details with
     | Some value => Some value
     | None => reviews_count business
     end)
    (place_id business) (hours business) (extracted_at business).

(** The body of the loop of [_extract_visible_businesses] for one item:
    the business appended, if any. *)
Definition business_of_item (item : ResultItem) : option Business :=
  match item with
  | Untitled => None
  | Unopened _ => None
  | Opened title clock details =>
      let business :=
        _extract_business_details (Business_new (Py.strip title) clock) details in
      match phone_numbers business with
      | [] => None
      | _ :: _ => Some business
      end
  end.

(** [_extract_visible_businesses]: the list after the call. *)
Definition _extract_visible_businesses (result_items : list ResultItem)
    (businesses : list Business) : list Business :=
  (businesses ++
   flat_map (fun item =>
               match business_of_item item with
               | Some business => [business]
               | None => []
               end)
            result_items)%list.

(** The feed as the scroll loop meets it: at round [i] either the feed
    container is missing or it shows a list of items. *)
Definition Feed : Type := nat -> option (list ResultItem).

(** The scroll loop of [_extract_businesses], [rounds] iterations left. *)
Fixpoint scroll_rounds (feed : Feed) (max_results : Z) (rounds i : nat)
    (businesses : list Business) : list Business :=
  match rounds with
  | O => businesses
  | S rounds' =>
      match feed i with
      | None => businesses
      | Some result_items =>
          let visible_count := Py.len businesses in
          let businesses := _extract_visible_businesses result_items businesses in
          if (max_results <=? Py.len businesses)%Z ||
             (Py.len businesses =? visible_count)%Z then businesses
          else scroll_rounds feed max_results rounds' (S i) businesses
      end
  end.

(** The list the scroll loop of [_extract_businesses] leaves behind. *)
Definition scrolled (feed : Feed) (max_results : Z) : list Business :=
  let scrolls_needed := Z.min 20 (max_results / 5) in
  scroll_rounds feed max_results (Z.to_nat scrolls_needed) 0 [].

(** [_extract_businesses]. *)
Definition _extract_businesses (feed : Feed) (max_results : Z) : list Business :=
  Py.slice_to max_results (scrolled feed max_results).

(** How a search went before the extraction: an exception raised while the
    page was driven, or the feed that the extraction reads. *)
Inductive Navigation : Type :=
| Crashed (message : string)
| Loaded (feed : Feed).

(** The pages behind the browser: for the [k]-th search, how it went and
    how long it took. *)
Definition Pages : Type := nat -> SearchParameters -> Navigation * Q.

(** The browser whose sessions run the modelled extraction over [pages]. *)
Definition browser_of (pages : Pages) : Browser := fun k params =>
  match pages k params with
  | (Crashed message, seconds) => mkSession (Failed message) seconds
  | (Loaded feed, seconds) =>
      mkSession (Extracted (scrolled feed (max_results params))) seconds
  end.

End Scraper.

(* ================================================================== *)
(** * main.py: the search orchestrator                                  *)
(* ================================================================== *)

Module Main.

Import Models Settings Scraper.
Local Open Scope string_scope.

(** Values stored in a location dictionary. *)
Inductive PyValue : Type :=
| VNone
| VNum (x : Q)
| VStr (s : string).

(** The [location] argument of [search]. *)
Inductive LocationInput : Type :=
| LocNone
| LocObject (l : Location)
| LocDict (d : list (string * PyValue))
| LocStr (s : string)
| LocOther.

(** Truthiness of a dictionary value. *)
Definition truthy (v : option PyValue) : bool :=
  match v with
  | None | Some VNone => false
  | Some (VNum x) => negb (Qeq_bool x 0)
  | Some (VStr s) => negb (String.eqb s "")
  end.

(** [a or b]. *)
Definition py_or (a b : option PyValue) : option PyValue :=
  if truthy a then a else b.

(** [v is not None], where a missing key reads as [None]. *)
Definition is_not_none (v : option PyValue) : bool :=
  match v with
  | None | Some VNone => false
  | Some _ => true
  end.

(** [float(v)]; text that parses as a number is outside the model. *)
Definition py_float (v : option PyValue) : Py.result Q :=
  match v with
  | Some (VNum x) => Py.Ok x
  | Some (VStr _) => Py.Raise Py.ValueError
  | None | Some VNone => Py.Raise Py.TypeError
  end.

(** A dictionary value stored into an optional text field. *)
Definition opt_text (v : option PyValue) : option string :=
  match v with
  | Some (VStr s) => Some s
  | _ => None
  end.

Section Orchestrator.

Variable config : Config.
Variable page : Browser.

(** The loop over [major_cities] in [_process_location]. *)
Fixpoint match_city (cities : list City) (location : string) : option Location :=
  match cities with
  | [] => None
  | c :: rest =>
      if String.eqb (Py.lower (city_name c)) (Py.lower location) then
        Some (Location_new (city_lat c) (city_lng c) None (Some (city_name c)) None)
      else match_city rest location
  end.

(** The loop over [districts] in [_process_location]. *)
Fixpoint match_district (ds : list string) (location : string) : option Location :=
  match ds with
  | [] => None
  | d :: rest =>
      if String.eqb (Py.lower d) (Py.lower location) then
        Some (Location_new (75 # 10) (807 # 10) None None (Some d))
      else match_district rest location
  end.

(** [GoogleMapsScraper._process_location]. *)
Definition _process_location (location : LocationInput)
    : Py.result (option Location) :=
  match location with
  | LocNone => Py.Ok None
  | LocObject l => Py.Ok (Some l)
  | LocDict d =>
      let lat := py_or (Py.dict_get d "lat") (Py.dict_get d "latitude") in
      let lng := py_or (Py.dict_get d "lng") (Py.dict_get d "longitude") in
      if is_not_none lat && is_not_none lng then
        do lat' <- py_float lat ;
        do lng' <- py_float lng ;
        Py.Ok (Some (Location_new lat' lng' None
                       (opt_text (Py.dict_get d "city"))
                       (opt_text (Py.dict_get d "district"))))
      else Py.Ok None
  | LocStr s =>
      match match_city (major_cities config) s with
      | Some l => Py.Ok (Some l)
      | None =>
          match match_district (districts config) s with
          | Some l => Py.Ok (Some l)
          | None => Py.Ok None
          end
      end
  | LocOther => Py.Ok None
  end.

(** [any(b.name == business.name for b in combined_result.businesses)]. *)
Definition name_seen (combined : SearchResult) (business : Business) : bool :=
  existsb (fun b => String.eqb (name b) (name business)) (businesses combined).

(** The body of the inner loop of [_search_subdivided_area]. *)
Definition merge_business (combined : SearchResult) (business : Business)
    : SearchResult :=
  if negb (name_seen combined business) then add_business combined business
  else combined.

(** The parameters built for one subdivision. *)
Definition sub_params_of (params : SearchParameters) (cell : Helpers.Cell)
    : SearchParameters :=
  let '(lat, lng, radius) := cell in
  let sub_location :=
    Location_new lat lng None
      (match sp_location params with Some l => city l | None => None end)
      (match sp_location params with Some l => district l | None => None end) in
  SearchParameters_new (query params) (Some sub_location) radius
    (max_results params).

(** The loop over the subdivisions in [_search_subdivided_area], with its
    [break]. *)
Fixpoint search_cells (params : SearchParameters) (subdivisions : list Helpers.Cell)
    (combined_result : SearchResult) (w : World) : SearchResult * World :=
  match subdivisions with
  | [] => (combined_result, w)
  | cell :: rest =>
      let sub_params := sub_params_of params cell in
      let '(sub_result, w') := search_businesses page sub_params w in
      let combined_result :=
        fold_left merge_business (businesses sub_result) combined_result in
      if (max_results params <=? Py.len (businesses combined_result))%Z then
        (combined_result, w')
      else search_cells params rest combined_result w'
  end.

(** The centre used by [_search_subdivided_area]. *)
Definition center_of (params : SearchParameters) : Q * Q :=
  match sp_location params with
  | Some l => (latitude l, longitude l)
  | None => (75 # 10, 807 # 10)
  end.

(** [GoogleMapsScraper._search_subdivided_area]. *)
Definition _search_subdivided_area (params : SearchParameters) (w : World)
    : Py.result (SearchResult * World) :=
  let combined_result := SearchResult_new params in
  let '(center_lat, center_lng) := center_of params in
  do subdivisions <-
    Helpers.subdivide_area center_lat center_lng (radius_km params)
      (subdivision_threshold config) ;
  Py.Ok (search_cells params subdivisions combined_result w).

(** [GoogleMapsScraper.search]. *)
Definition search (query : string) (location : LocationInput)
    (radius_km : option Q) (max_results : option Z) (w : World)
    : Py.result (SearchResult * World) :=
  let radius_km :=
    match radius_km with Some r => r | None => default_radius config end in
  let max_results :=
    match max_results with Some m => m | None => max_results_per_query config end in
  do location_obj <- _process_location location ;
  let params := SearchParameters_new query location_obj radius_km max_results in
  if negb (Qle_bool radius_km (subdivision_threshold config)) then
    _search_subdivided_area params w
  else
    Py.Ok (search_businesses page params w).

End Orchestrator.

End Main.

(* ================================================================== *)
(** * validate_data.py: the phone statistics of the test script         *)
(* ================================================================== *)

Module ValidateData.

Local Open Scope string_scope.

(** The test applied to each phone number in [validate_phone_numbers]. *)
Definition counts_as_valid (phone : string) : bool :=
  if (Py.startswith phone "+94" && (String.length phone =? 12)%nat) ||
     (Py.startswith phone "0" && (String.length phone =? 10)%nat) then
    let prefix :=
      if Py.startswith phone "+94" then Py.slice 3 5 phone
      else Py.slice 1 3 phone in
    let mobile_prefixes := ["70"; "71"; "72"; "74"; "75"; "76"; "77"; "78"] in
    let landline_prefixes :=
      ["11"; "33"; "34"; "81"; "66"; "52"; "91"; "41"; "47";
       "21"; "23"; "24"; "65"; "63"; "26"; "37"; "32"; "25";
       "27"; "55"; "45"; "35"] in
    Py.str_in prefix mobile_prefixes || Py.str_in prefix landline_prefixes
  else false.

(** [validate_phone_numbers], from the phone numbers read off the results
    file on: [(total, valid_count, validation_rate)]. *)
Definition validate_phone_numbers (phone_numbers : list string) : Z * Z * Q :=
  let valid_count :=
    fold_left (fun count phone =>
                 if counts_as_valid phone then (count + 1)%Z else count)
              phone_numbers 0%Z in
  let total := Py.len phone_numbers in
  let validation_rate :=
    if (0 <? total)%Z then (inject_Z valid_count / inject_Z total)%Q else 0%Q in
  (total, valid_count, validation_rate).

End ValidateData.

(* ================================================================== *)
(** * helpers.py and business.py: saving the results                    *)
(* ================================================================== *)

Module Saving.

Import Models.
Local Open Scope string_scope.
Local Open Scope list_scope.

Unset Elimination Schemes.

(** The values held by the dictionaries and the rows. *)
Inductive Value : Type :=
| VNone
| VBool (b : bool)
| VInt (z : Z)
| VFloat (x : Q)
| VStr (s : string)
| VList (l : list Value)
| VDict (d : list (string * Value)).

Set Elimination Schemes.

(** A dictionary with string keys, in insertion order. *)
Definition Dict : Type := list (string * Value).












Section Files.

(** [datetime.isoformat], [datetime.strftime('%Y%m%d_%H%M%S')] and
    [str(Path(output_dir) / filename)]. *)
Variable isoformat : Z -> string.
Variable strftime : Z -> string.
Variable path_join : string -> string -> string.





End Files.

End Saving.

(* ================================================================== *)
(** * Notions used to state the properties                              *)
(* ================================================================== *)

Module Notions.

Import Models Settings Scraper Main.
Local Open Scope string_scope.
Local Open Scope list_scope.

(** ** Phone numbers *)

(** Every character of [s] passes the filter of the normaliser. *)
Fixpoint only_phone_chars (s : string) : bool :=
  match s with
  | EmptyString => true
  | String c rest => Helpers.keep_char c && only_phone_chars rest
  end.

(** ** Cells *)

(** The cell is centred on the given point (float equality). *)
Definition centered_at (lat lng : Q) (cell : Helpers.Cell) : Prop :=
  fst (fst cell) == lat /\ snd (fst cell) == lng.

(** The radius carried by a cell. *)
Definition cell_radius (cell : Helpers.Cell) : Q := snd cell.

(** ** First-seen merging of business lists *)

Definition named (x : string) (b : Business) : bool := String.eqb (name b) x.

(** The inner loop of the orchestrator on the bare business lists. *)
Definition merge_one (acc : list Business) (b : Business) : list Business :=
  if existsb (fun b' => String.eqb (name b') (name b)) acc then acc
  else acc ++ [b].

Definition merge (acc news : list Business) : list Business :=
  fold_left merge_one news acc.

(** Merging the responses of several cells in order. *)
Definition merge_all (acc : list Business) (responses : list (list Business))
    : list Business :=
  fold_left merge responses acc.

(** How many cells the loop searches before its [break]. *)
Fixpoint cells_processed (maxr : Z) (acc : list Business)
    (responses : list (list Business)) : nat :=
  match responses with
  | [] => 0
  | r :: rest =>
      if (maxr <=? Py.len (merge acc r))%Z then 1
      else S (cells_processed maxr (merge acc r) rest)
  end.

(** What each cell yields when the cells are searched in order, the first
    of them as the [k]-th search of the run. *)
Fixpoint cell_responses (page : Browser) (params : SearchParameters) (k : nat)
    (cells : list Helpers.Cell) : list (list Business) :=
  match cells with
  | [] => []
  | cell :: rest =>
      businesses (session_result page k (sub_params_of params cell))
        :: cell_responses page params (S k) rest
  end.

(** The subdivisions [_search_subdivided_area] asks for. *)
Definition cells_of (config : Config) (params : SearchParameters)
    : Py.result (list Helpers.Cell) :=
  Helpers.subdivide_area (fst (center_of params)) (snd (center_of params))
    (radius_km params) (subdivision_threshold config).

(** The one cell of a search within the threshold: the whole disc. *)
Definition whole_cell (params : SearchParameters) : Helpers.Cell :=
  (fst (center_of params), snd (center_of params), radius_km params).

(** ** Example sessions *)


Definition extracted (feed : list Business) : Session :=
  mkSession (Extracted feed) 1.

(** A browser that never finds anything. *)
Definition quiet_page : Browser := fun _ _ => extracted [].

(** Pages on which every search loads a feed showing one listing, a
    "Cafe X" with a mobile number, in its first round only. *)
Definition cafe_pages : Pages := fun _ _ =>
  (Loaded (fun i =>
     match i with
     | 0%nat => Some [Opened "Cafe X" 0
                        (mkDetails None None None (Some "0712345678")
                           None None None)]
     | _ => None
     end), 1).


(** A feed entry that opens to a panel with a mobile number. *)
Definition shown (title : string) : ResultItem :=
  Opened title 0 (mkDetails None None None (Some "0712345678") None None None).

(** Pages whose first search shows four listings and whose later searches
    show five others, each in one round of the feed. *)
Definition crowded_pages : Pages := fun k _ =>
  (Loaded (fun _ =>
     match k with
     | 0%nat => Some [shown "A"; shown "B"; shown "C"; shown "D"]
     | _ => Some [shown "E"; shown "F"; shown "G"; shown "H"; shown "I"]
     end), 1).

(** Pages on which every search crashes before the feed is read. *)
Definition crashed_pages : Pages := fun _ _ =>
  (Crashed "Could not find search box", 1).

(** A 30 km search around the default centre, capped at [cap] results. *)
Definition wide_search (cap : Z) : SearchParameters :=
  SearchParameters_new "cafe" None 30 cap.

(** A 5 km search around the default centre, capped at [cap] results. *)
Definition near_search (cap : Z) : SearchParameters :=
  SearchParameters_new "cafe" None 5 cap.

(** The fields of a result other than its businesses and their count. *)
Definition other_fields (r : SearchResult)
    : SearchParameters * bool * option string * Q :=
  (parameters r, success r, error_message r, search_time r).

(** ** Extracted listings *)

(** A phone number as the extraction attaches them: validated, twelve
    characters starting with +94, no region, and either mobile with a
    mobile prefix or not mobile with an area code starting with 0. *)
Definition attached_phone (p : PhoneNumber) : Prop :=
  is_validated p = true /\
  region p = None /\
  String.length (number p) = 12%nat /\
  Py.startswith (number p) "+94" = true /\
  ((is_mobile p = Some true /\
    In (Py.slice 3 5 (number p))
       ["70"; "71"; "72"; "74"; "75"; "76"; "77"; "78"]) \/
   (is_mobile p = Some false /\
    Py.startswith (Py.slice_from 3 (number p)) "0" = true)).

(** A business as the extraction keeps them: at least one phone number,
    and every phone number an attached one. *)
Definition kept_business (b : Business) : Prop :=
  phone_numbers b <> [] /\ Forall attached_phone (phone_numbers b).

(** ** Saved files *)


(** The cell of a row under a field name, blank when the row lacks it. *)
Definition cell (row : Saving.Dict) (key : string) : Saving.Value :=
  match Py.dict_get row key with
  | Some v => v
  | None => Saving.VStr ""
  end.













(** ** Regular languages *)

(** [matches r m]: the text [m] belongs to the language of [r]. *)
Inductive matches : Re.regex -> list ascii -> Prop :=
| MEps : matches Re.Eps []
| MLit (c : ascii) : matches (Re.Lit c) [c]
| MClass (ranges : list (ascii * ascii)) (c : ascii) :
    Re.in_class c ranges = true -> matches (Re.Class ranges) [c]
| MSeq (r1 r2 : Re.regex) (m1 m2 : list ascii) :
    matches r1 m1 -> matches r2 m2 -> matches (Re.Seq r1 r2) (m1 ++ m2)
| MAltL (r1 r2 : Re.regex) (m : list ascii) :
    matches r1 m -> matches (Re.Alt r1 r2) m
| MAltR (r1 r2 : Re.regex) (m : list ascii) :
    matches r2 m -> matches (Re.Alt r1 r2) m
| MRepO (r : Re.regex) : matches (Re.Repeat 0 r) []
| MRepS (n : nat) (r : Re.regex) (m1 m2 : list ascii) :
    matches (Re.Repeat n r) m1 -> matches r m2 ->
    matches (Re.Repeat (S n) r) (m1 ++ m2).

(** The pattern [extract_phone_numbers] searches for. *)
Definition phone_pattern : Re.regex :=
  Re.Alt Helpers.SL_MOBILE_PATTERN
    (Re.Alt Helpers.SL_LANDLINE_PATTERN Helpers.SL_GENERAL_PATTERN).

End Notions.

(* ================================================================== *)
(** * Properties of the phone canonicalizer                             *)
(* ================================================================== *)

Module PhoneProps.

Import Helpers Notions.
Local Open Scope string_scope.

Lemma filter_only_phone_chars (s : string) :
  only_phone_chars (Py.filter keep_char s) = true.
Proof.
  induction s as [|c s IH]; simpl; [reflexivity|].
  destruct (keep_char c) eqn:Hc; simpl; [rewrite Hc|]; assumption.
Qed.

Lemma filter_fixed (s : string) :
  only_phone_chars s = true -> Py.filter keep_char s = s.
Proof.
  induction s as [|c s IH]; simpl; [reflexivity|].
  intros H. apply andb_true_iff in H as [Hc Hs].
  rewrite Hc, IH by assumption. reflexivity.
Qed.

Lemma only_phone_chars_app (s t : string) :
  only_phone_chars (s ++ t) = only_phone_chars s && only_phone_chars t.
Proof.
  induction s as [|c s IH]; simpl; [reflexivity|].
  rewrite IH. apply andb_assoc.
Qed.

Lemma only_phone_chars_slice_from (n : nat) (s : string) :
  only_phone_chars s = true -> only_phone_chars (Py.slice_from n s) = true.
Proof.
  revert s. induction n as [|n IH]; intros [|c s]; simpl; auto.
  intros H. apply andb_true_iff in H as [_ Hs]. auto.
Qed.

(** The three branches of the normaliser, read off the first kept
    character. *)
Lemma normalize_cases (raw : string) :
  let kept := Py.filter keep_char raw in
  (Py.startswith kept "0" = true /\
   normalize raw = "+94" ++ Py.slice_from 1 kept) \/
  (Py.startswith kept "0" = false /\ Py.startswith kept "+" = false /\
   normalize raw = "+94" ++ kept) \/
  (Py.startswith kept "+" = true /\ normalize raw = kept).
Proof.
  unfold normalize. cbv zeta.
  destruct (Py.startswith (Py.filter keep_char raw) "0") eqn:H0; [left; auto|].
  destruct (Py.startswith (Py.filter keep_char raw) "+") eqn:Hp; simpl;
    [right; right|right; left]; auto.
Qed.

Lemma normalize_only_phone_chars (raw : string) :
  only_phone_chars (normalize raw) = true.
Proof.
  pose proof (filter_only_phone_chars raw) as Hk.
  destruct (normalize_cases raw) as [[_ ->]|[[_ [_ ->]]|[_ ->]]].
  - rewrite only_phone_chars_app, only_phone_chars_slice_from by assumption.
    reflexivity.
  - rewrite only_phone_chars_app, Hk. reflexivity.
  - assumption.
Qed.

Lemma startswith_plus94_plus (s : string) :
  Py.startswith s "+94" = true -> Py.startswith s "+" = true.
Proof.
  destruct s as [|c s]; cbn [Py.startswith]; [easy|].
  destruct (Ascii.eqb c "+"); [intros _; destruct s; reflexivity|easy].
Qed.

Lemma startswith_plus_not_zero (s : string) :
  Py.startswith s "+" = true -> Py.startswith s "0" = false.
Proof.
  destruct s as [|c s]; cbn [Py.startswith]; [easy|].
  destruct (Ascii.eqb c "+") eqn:E; [|easy].
  apply Ascii.eqb_eq in E. subst c. reflexivity.
Qed.

Lemma normalize_starts_with_plus (raw : string) :
  Py.startswith (normalize raw) "+" = true.
Proof.
  destruct (normalize_cases raw) as [[_ ->]|[[_ [_ ->]]|[H ->]]];
    try reflexivity; assumption.
Qed.

(** A string of kept characters that starts with [+] is left alone. *)
Lemma normalize_fixed (s : string) :
  only_phone_chars s = true -> Py.startswith s "+" = true -> normalize s = s.
Proof.
  intros Hk Hp. unfold normalize. rewrite (filter_fixed s Hk).
  rewrite (startswith_plus_not_zero s Hp), Hp. reflexivity.
Qed.

Lemma normalize_idempotent (raw : string) :
  normalize (normalize raw) = normalize raw.
Proof.
  apply normalize_fixed;
    [apply normalize_only_phone_chars | apply normalize_starts_with_plus].
Qed.

(** A dict literal with distinct keys is read by [get] exactly as its list
    of items. *)
Lemma dict_get_In {V : Type} (d : list (string * V)) (k : string) (v : V) :
  NoDup (map fst d) -> (Py.dict_get d k = Some v <-> In (k, v) d).
Proof.
  induction d as [|[k' v'] d IH]; simpl; intros Hnd.
  - split; [discriminate|tauto].
  - inversion Hnd as [|? ? Hnotin Hnd']; subst.
    destruct (String.eqb k' k) eqn:Hk.
    + apply String.eqb_eq in Hk. subst k'. split.
      * intros [= ->]. left. reflexivity.
      * intros [[= ->]|Hin]; [reflexivity|].
        exfalso. apply Hnotin. apply (in_map fst) in Hin. exact Hin.
    + apply String.eqb_neq in Hk. rewrite (IH Hnd'). split; [tauto|].
      intros [[= -> _]|Hin]; [congruence|assumption].
Qed.

Lemma dict_get_None {V : Type} (d : list (string * V)) (k : string) :
  Py.dict_get d k = None <-> ~ In k (map fst d).
Proof.
  induction d as [|[k' v'] d IH]; simpl; [tauto|].
  destruct (String.eqb k' k) eqn:Hk.
  - apply String.eqb_eq in Hk. split; [discriminate|]. intros H. tauto.
  - apply String.eqb_neq in Hk. rewrite IH. tauto.
Qed.

Lemma str_in_In (x : string) (xs : list string) :
  Py.str_in x xs = true <-> In x xs.
Proof.
  unfold Py.str_in. rewrite existsb_exists. split.
  - intros [y [Hin Heq]]. apply String.eqb_eq in Heq. subst. assumption.
  - intros Hin. exists x. split; [assumption|apply String.eqb_refl].
Qed.

Lemma landline_regions_keys_distinct : NoDup (map fst landline_regions).
Proof.
  simpl. repeat (constructor; [simpl; intuition discriminate|]). constructor.
Qed.

(** No mobile prefix is a key of the landline table. *)
Lemma mobile_prefix_has_no_region (p : string) :
  Py.str_in p mobile_prefixes = true -> Py.dict_get landline_regions p = None.
Proof.
  intros H. apply str_in_In in H. simpl in H.
  repeat (destruct H as [<-|H]; [reflexivity|]). contradiction.
Qed.

(** The tables of [helpers.py] carry the same codes as the
    [phone_validation] section of [DEFAULT_CONFIG]. *)
Lemma tables_agree_with_settings :
  mobile_prefixes = Settings.mobile_prefixes Settings.DEFAULT_CONFIG /\
  (forall code : string,
     In code (map fst landline_regions) <->
     In code (map snd (Settings.landline_prefixes Settings.DEFAULT_CONFIG))).
Proof.
  split; [reflexivity|]. intros code. simpl. split; intros H;
    repeat (destruct H as [<-|H]; [tauto|]); contradiction.
Qed.

(** The validator on a structurally valid number, unfolded. *)
Lemma validate_valid (phone : string) :
  Py.startswith (normalize phone) "+94" = true ->
  String.length (normalize phone) = 12%nat ->
  validate_sri_lankan_phone phone =
    (true,
     MetaPhone (Py.str_in (Py.slice 3 5 (normalize phone)) mobile_prefixes)
       (Py.dict_get landline_regions (Py.slice 3 5 (normalize phone)))
       (normalize phone) ("0" ++ Py.slice_from 3 (normalize phone))).
Proof.
  intros Hp Hl. unfold validate_sri_lankan_phone. cbv zeta.
  rewrite Hp, Hl. reflexivity.
Qed.

Lemma validate_invalid (phone : string) :
  Py.startswith (normalize phone) "+94" && (String.length (normalize phone) =? 12)%nat = false ->
  validate_sri_lankan_phone phone = (false, MetaError "Invalid length or country code").
Proof.
  intros H. unfold validate_sri_lankan_phone. cbv zeta. rewrite H. reflexivity.
Qed.

(** [PhoneNumber.__post_init__] repeats the normaliser of [helpers.py]. *)
Lemma post_init_number_normalize (raw : string) :
  Models.post_init_number raw = normalize raw.
Proof. reflexivity. Qed.

(** The validator accepts exactly the raw strings whose normal form starts
    with [+94] and has twelve characters. *)
Lemma validate_accepts_iff (phone : string) :
  fst (validate_sri_lankan_phone phone) = true <->
  Py.startswith (normalize phone) "+94" = true /\
  String.length (normalize phone) = 12%nat.
Proof.
  destruct (Py.startswith (normalize phone) "+94" &&
            (String.length (normalize phone) =? 12)%nat) eqn:E.
  - apply andb_true_iff in E as [Hp Hl]. apply Nat.eqb_eq in Hl.
    rewrite (validate_valid phone Hp Hl). cbn [fst]. tauto.
  - rewrite (validate_invalid phone E). cbn [fst]. split; [discriminate|].
    intros [Hp Hl]. rewrite Hp, Hl in E. discriminate.
Qed.

(** Validating the normal form of an accepted number returns the same
    metadata. *)
Lemma validate_idempotent (raw : string) (mobile : bool)
    (reg : option string) (n l : string) :
  validate_sri_lankan_phone raw = (true, MetaPhone mobile reg n l) ->
  validate_sri_lankan_phone n = (true, MetaPhone mobile reg n l).
Proof.
  intros H.
  assert (Hv : fst (validate_sri_lankan_phone raw) = true) by (rewrite H; reflexivity).
  apply validate_accepts_iff in Hv as [Hp Hl].
  rewrite (validate_valid raw Hp Hl) in H. injection H as <- <- <- <-.
  rewrite validate_valid; rewrite normalize_idempotent; auto.
Qed.

(** Stripping happens before the length check: a twelve-character string
    that starts with [+94] but holds a dash is rejected. *)
Lemma validate_rejects_dashed :
  validate_sri_lankan_phone "+94-71234567" =
    (false, MetaError "Invalid length or country code").
Proof. reflexivity. Qed.

(** C2. The scenario text "Call us: 071 234 5678": the three patterns of
    [extract_phone_numbers] allow no space between the digits, so the
    extractor returns no candidate at all for it, although the validator,
    given the spaced number itself, accepts it as the mobile number
    +94712345678, and the extractor does find the same number when it is
    written without spaces. *)
Theorem extract_phone_numbers_spaced_scenario :
  extract_phone_numbers "Call us: 071 234 5678" = [] /\
  validate_sri_lankan_phone "071 234 5678" =
    (true, MetaPhone true None "+94712345678" "0712345678") /\
  extract_phone_numbers "Call us: 0712345678" = ["+94712345678"].
Proof. repeat split; vm_compute; reflexivity. Qed.

(** C8. For every structurally valid number (its normal form starts with
    +94 and has twelve characters) the validator accepts it and classifies
    it mobile if and only if the two characters after +94 are one of
    70, 71, 72, 74, 75, 76, 77, 78; a mobile number carries no region; the
    region is a name exactly when the code is a key of the landline table,
    and it is null for every other code. *)
Theorem validate_classification (phone : string) :
  Py.startswith (normalize phone) "+94" = true ->
  String.length (normalize phone) = 12%nat ->
  exists (mobile : bool) (reg : option string) (local : string),
    validate_sri_lankan_phone phone =
      (true, MetaPhone mobile reg (normalize phone) local) /\
    (mobile = true <->
     In (Py.slice 3 5 (normalize phone))
        ["70"; "71"; "72"; "74"; "75"; "76"; "77"; "78"]) /\
    (mobile = true -> reg = None) /\
    (forall region_name : string,
       reg = Some region_name <->
       In (Py.slice 3 5 (normalize phone), region_name) landline_regions) /\
    (reg = None <-> ~ In (Py.slice 3 5 (normalize phone)) (map fst landline_regions)).
Proof.
  intros Hp Hl. eexists _, _, _. split; [apply (validate_valid phone Hp Hl)|].
  split; [apply str_in_In|]. split; [apply mobile_prefix_has_no_region|].
  split; [intros region_name; apply dict_get_In, landline_regions_keys_distinct|].
  apply dict_get_None.
Qed.

Lemma validate_classification_witness :
  exists (mobile : bool) (reg : option string) (local : string),
    validate_sri_lankan_phone "081 223 4567" =
      (true, MetaPhone mobile reg (normalize "081 223 4567") local) /\
    (mobile = true <->
     In (Py.slice 3 5 (normalize "081 223 4567"))
        ["70"; "71"; "72"; "74"; "75"; "76"; "77"; "78"]) /\
    (mobile = true -> reg = None) /\
    (forall region_name : string,
       reg = Some region_name <->
       In (Py.slice 3 5 (normalize "081 223 4567"), region_name) landline_regions) /\
    (reg = None <->
     ~ In (Py.slice 3 5 (normalize "081 223 4567")) (map fst landline_regions)).
Proof. apply (validate_classification "081 223 4567"); reflexivity. Defined.

(** C9. Normalisation is idempotent: a string that is already a valid
    normalised number (made of digits and [+] only, starting with +94,
    twelve characters long) is accepted by the validator, and the
    [normalized] field of the metadata is that same string. *)
Theorem validate_normalized_unchanged (s : string) :
  only_phone_chars s = true ->
  Py.startswith s "+94" = true ->
  String.length s = 12%nat ->
  exists (mobile : bool) (reg : option string) (local : string),
    validate_sri_lankan_phone s = (true, MetaPhone mobile reg s local).
Proof.
  intros Hk Hp Hl.
  assert (Hn : normalize s = s)
    by (apply normalize_fixed; [assumption|apply startswith_plus94_plus; assumption]).
  eexists _, _, _. rewrite validate_valid; rewrite Hn; auto.
Qed.

Lemma validate_normalized_unchanged_witness :
  exists (mobile : bool) (reg : option string) (local : string),
    validate_sri_lankan_phone "+94712345678" =
      (true, MetaPhone mobile reg "+94712345678" local).
Proof. apply (validate_normalized_unchanged "+94712345678"); reflexivity. Defined.

(** C10. Whatever the raw text (empty, or failing validation), the number
    of a constructed [PhoneNumber] is non-empty and starts with [+]; it
    holds digits and [+] only; and it never starts with the local trunk
    digit 0.  It is made of the digits and plus signs of the raw text, in
    their order: when these start with 0, the 0 is replaced by +94; when
    they start with neither 0 nor [+], +94 is put in front of them (so the
    number starts with +94 whenever they do not start with [+]); when they
    start with [+], they are the number as they are. *)
Theorem PhoneNumber_number_international (raw : string) (mobile : option bool)
    (validated : bool) (reg : option string) :
  let p := Models.PhoneNumber_new raw mobile validated reg in
  let kept := Py.filter (fun c => Py.isdigit c || Ascii.eqb c "+") raw in
  Models.number p <> "" /\
  Py.startswith (Models.number p) "+" = true /\
  only_phone_chars (Models.number p) = true /\
  (Py.startswith kept "+" = false ->
   Py.startswith (Models.number p) "+94" = true) /\
  Py.startswith (Models.number p) "0" = false /\
  (Py.startswith kept "0" = true ->
   Models.number p = "+94" ++ Py.slice_from 1 kept) /\
  (Py.startswith kept "0" = false -> Py.startswith kept "+" = false ->
   Models.number p = "+94" ++ kept) /\
  (Py.startswith kept "+" = true -> Models.number p = kept) /\
  Models.is_mobile p = mobile /\
  Models.is_validated p = validated /\
  Models.region p = reg.
Proof.
  cbv zeta. cbn [Models.PhoneNumber_new Models.number Models.is_mobile
                 Models.is_validated Models.region].
  rewrite post_init_number_normalize.
  change (fun c : ascii => Py.isdigit c || Ascii.eqb c "+") with Helpers.keep_char.
  pose proof (normalize_starts_with_plus raw) as Hplus.
  split; [intros E; rewrite E in Hplus; discriminate|].
  split; [assumption|]. split; [apply normalize_only_phone_chars|].
  split.
  { intros Hnp. destruct (normalize_cases raw) as [[_ ->]|[[_ [_ ->]]|[H _]]];
      try reflexivity.
    congruence. }
  split; [apply startswith_plus_not_zero; assumption|].
  split; [|split; [|split; [|auto]]].
  - intros H0. destruct (normalize_cases raw) as [[_ ->]|[[H [_ _]]|[H _]]];
      [reflexivity|congruence|].
    exfalso. destruct (Py.filter Helpers.keep_char raw) as [|c rest];
      [discriminate|].
    cbn [Py.startswith] in H0, H.
    destruct (Ascii.eqb c "0") eqn:E0; [|discriminate].
    apply Ascii.eqb_eq in E0. subst c. discriminate.
  - intros H0 Hp. destruct (normalize_cases raw) as [[H _]|[[_ [_ ->]]|[H _]]];
      [congruence|reflexivity|congruence].
  - intros Hp. destruct (normalize_cases raw) as [[H _]|[[_ [H _]]|[_ ->]]];
      [|congruence|reflexivity].
    exfalso. destruct (Py.filter Helpers.keep_char raw) as [|c rest];
      [discriminate|].
    cbn [Py.startswith] in Hp, H.
    destruct (Ascii.eqb c "0") eqn:E0; [|discriminate].
    apply Ascii.eqb_eq in E0. subst c. discriminate.
Qed.

End PhoneProps.

(* ================================================================== *)
(** * Properties of the area subdivider                                 *)
(* ================================================================== *)

Module SubdivideProps.

Import Helpers Notions.

(** [helpers.py] binds no name [math]. *)
Lemma math_unbound :
  Py.load_global module_names "math"%string = Py.Raise Py.NameError.
Proof. reflexivity. Qed.

(** The lattice code stops at its first statement, whatever its
    arguments. *)
Lemma subdivide_lattice_raises (lat lng r m : Q) :
  subdivide_lattice lat lng r m = Py.Raise Py.NameError.
Proof. unfold subdivide_lattice. rewrite math_unbound. reflexivity. Qed.

Lemma subdivide_area_large (lat lng r m : Q) :
  m < r -> subdivide_area lat lng r m = subdivide_lattice lat lng r m.
Proof.
  intros H. unfold subdivide_area.
  destruct (Qle_bool r m) eqn:E; [|reflexivity].
  apply Qle_bool_iff in E. exfalso. apply (Qlt_not_le _ _ H E).
Qed.

(** The two outcomes of [subdivide_area]: the input cell within the
    threshold, [NameError] above it. *)
Lemma subdivide_area_outcomes (lat lng r m : Q) :
  (r <= m /\ subdivide_area lat lng r m = Py.Ok [(lat, lng, r)]) \/
  (m < r /\ subdivide_area lat lng r m = Py.Raise Py.NameError).
Proof.
  destruct (Qlt_le_dec m r) as [H|H].
  - right. split; [exact H|].
    rewrite (subdivide_area_large lat lng r m H). apply subdivide_lattice_raises.
  - left. split; [exact H|]. unfold subdivide_area.
    apply Qle_bool_iff in H. rewrite H. reflexivity.
Qed.

(** The early return comes before the lattice is looked at: the lattice
    code raises, and [subdivide_area] still returns the input cell. *)
Lemma subdivide_area_short_circuits :
  subdivide_lattice 0 0 0 0 = Py.Raise Py.NameError /\
  subdivide_area 0 0 0 0 = Py.Ok [(0, 0, 0)].
Proof. split; reflexivity. Qed.

(** C6. For every centre and every radius less than or equal to the
    maximum cell radius, [subdivide_area] returns the one-element list
    holding the input itself: same latitude, same longitude, the original
    radius; the lattice is not computed. *)
Theorem subdivide_area_within_threshold (lat lng r m : Q) :
  r <= m ->
  subdivide_area lat lng r m = Py.Ok [(lat, lng, r)].
Proof.
  intros H. unfold subdivide_area.
  apply Qle_bool_iff in H. rewrite H. reflexivity.
Qed.

Lemma subdivide_area_within_threshold_witness :
  subdivide_area (69271 # 10000) (798612 # 10000) 5 20 =
    Py.Ok [(69271 # 10000, 798612 # 10000, 5)].
Proof.
  apply (subdivide_area_within_threshold (69271 # 10000) (798612 # 10000) 5 20).
  discriminate.
Defined.

(** C5, on the code.  For every centre and every radius strictly greater
    than the maximum cell radius, [subdivide_area] returns no list at all:
    the first statement after the early return evaluates [math.pi] in a
    module that never imports [math], and the call raises [NameError].
    No cell of radius [max_radius_km] and no cell at the original centre
    is ever returned. *)
Theorem subdivide_area_above_threshold_raises (lat lng r m : Q) :
  m < r ->
  subdivide_area lat lng r m = Py.Raise Py.NameError /\
  ~ (exists cells : list Cell,
       subdivide_area lat lng r m = Py.Ok cells /\
       Forall (fun cell => cell_radius cell = m) cells /\
       Exists (centered_at lat lng) cells).
Proof.
  intros H.
  assert (Hraise : subdivide_area lat lng r m = Py.Raise Py.NameError).
  { rewrite (subdivide_area_large lat lng r m H). apply subdivide_lattice_raises. }
  split; [exact Hraise|].
  intros [cells [Hok _]]. rewrite Hraise in Hok. discriminate Hok.
Qed.

Lemma subdivide_area_above_threshold_raises_witness :
  subdivide_area (75 # 10) (807 # 10) 30 20 = Py.Raise Py.NameError /\
  ~ (exists cells : list Cell,
       subdivide_area (75 # 10) (807 # 10) 30 20 = Py.Ok cells /\
       Forall (fun cell => cell_radius cell = 20) cells /\
       Exists (centered_at (75 # 10) (807 # 10)) cells).
Proof.
  apply (subdivide_area_above_threshold_raises (75 # 10) (807 # 10) 30 20).
  reflexivity.
Defined.

End SubdivideProps.

(* ================================================================== *)
(** * Properties of the search orchestrator                             *)
(* ================================================================== *)

Module OrchestratorProps.

Import Models Settings Scraper Main Notions.
Local Open Scope string_scope.
Local Open Scope list_scope.

(** ** First-seen merging *)





(** ** The loop of [_search_subdivided_area] *)

Section Loop.

Variable page : Browser.
Variable params : SearchParameters.

Lemma merge_business_businesses (combined : SearchResult) (b : Business) :
  businesses (merge_business combined b) = merge_one (businesses combined) b.
Proof.
  unfold merge_business, name_seen, merge_one.
  destruct (existsb _ (businesses combined)); reflexivity.
Qed.

Lemma merge_business_total (combined : SearchResult) (b : Business) :
  total_found combined = Py.len (businesses combined) ->
  total_found (merge_business combined b) =
    Py.len (businesses (merge_business combined b)).
Proof.
  unfold merge_business. destruct (negb _); [reflexivity|auto].
Qed.

Lemma fold_merge_business (l : list Business) (combined : SearchResult) :
  businesses (fold_left merge_business l combined) = merge (businesses combined) l /\
  (total_found combined = Py.len (businesses combined) ->
   total_found (fold_left merge_business l combined) =
     Py.len (businesses (fold_left merge_business l combined))).
Proof.
  revert combined. induction l as [|b l IH]; intros combined; simpl; [auto|].
  destruct (IH (merge_business combined b)) as [Hb Ht].
  split; [rewrite Hb, merge_business_businesses; reflexivity|].
  intros H. apply Ht, merge_business_total, H.
Qed.

(** The loop searches the first [cells_processed] cells, one search each,
    and returns the first-seen merge of what they yield. *)
Lemma search_cells_spec (cells : list Helpers.Cell) (combined : SearchResult)
    (w : World) :
  let responses := cell_responses page params (List.length w) cells in
  let n := cells_processed (max_results params) (businesses combined) responses in
  snd (search_cells page params cells combined w) =
    w ++ map (sub_params_of params) (firstn n cells) /\
  businesses (fst (search_cells page params cells combined w)) =
    merge_all (businesses combined) (firstn n responses) /\
  (total_found combined = Py.len (businesses combined) ->
   total_found (fst (search_cells page params cells combined w)) =
     Py.len (businesses (fst (search_cells page params cells combined w)))).
Proof.
  revert combined w. induction cells as [|c cs IH]; intros combined w; cbv zeta.
  - simpl. rewrite app_nil_r. auto.
  - cbn [search_cells cell_responses cells_processed].
    unfold search_businesses.
    set (r := businesses (session_result page (List.length w) (sub_params_of params c))).
    destruct (fold_merge_business r combined) as [Hb Ht].
    rewrite Hb.
    destruct (max_results params <=? Py.len (merge (businesses combined) r))%Z.
    + cbn [fst snd firstn map merge_all fold_left]. auto.
    + specialize (IH (fold_left merge_business r combined) (w ++ [sub_params_of params c])).
      cbv zeta in IH. rewrite length_app, Nat.add_1_r, Hb in IH.
      destruct IH as [Hw [Hbs Htot]].
      cbn [firstn map merge_all fold_left].
      rewrite Hw, <- app_assoc. split; [reflexivity|].
      split; [exact Hbs|]. intros H. apply Htot. rewrite <- Hb. apply Ht, H.
Qed.

End Loop.

(** ** The subdivided search *)

Lemma search_subdivided_unfold (config : Config) (page : Browser)
    (params : SearchParameters) (w : World) :
  _search_subdivided_area config page params w =
    match cells_of config params with
    | Py.Ok cells =>
        Py.Ok (search_cells page params cells (SearchResult_new params) w)
    | Py.Raise e => Py.Raise e
    end.
Proof.
  unfold _search_subdivided_area, cells_of.
  destruct (center_of params) as [lat lng]. reflexivity.
Qed.

(** The subdivisions asked for: the whole disc within the threshold,
    [NameError] above it. *)
Lemma cells_of_outcomes (config : Config) (params : SearchParameters) :
  (radius_km params <= subdivision_threshold config /\
   cells_of config params = Py.Ok [whole_cell params]) \/
  (subdivision_threshold config < radius_km params /\
   cells_of config params = Py.Raise Py.NameError).
Proof.
  unfold cells_of, whole_cell.
  destruct (SubdivideProps.subdivide_area_outcomes
              (fst (center_of params)) (snd (center_of params))
              (radius_km params) (subdivision_threshold config)) as [H|H];
    [left|right]; exact H.
Qed.

(** The loop over one cell: one search, and the first-seen merge of what
    it yields. *)
Lemma search_cells_single (page : Browser) (params : SearchParameters)
    (cell : Helpers.Cell) (w : World) :
  exists combined : SearchResult,
    search_cells page params [cell] (SearchResult_new params) w =
      (combined, w ++ [sub_params_of params cell]) /\
    businesses combined =
      merge [] (businesses (session_result page (List.length w)
                              (sub_params_of params cell))) /\
    total_found combined = Py.len (businesses combined).
Proof.
  destruct (search_cells_spec page params [cell] (SearchResult_new params) w)
    as [Hw [Hb Ht]].
  change (businesses (SearchResult_new params)) with (@nil Business) in Hw, Hb.
  assert (Hn : cells_processed (max_results params) []
                 (cell_responses page params (List.length w) [cell]) = 1%nat).
  { cbn [cell_responses cells_processed]. destruct (_ <=? _)%Z; reflexivity. }
  rewrite Hn in Hw, Hb.
  exists (fst (search_cells page params [cell] (SearchResult_new params) w)).
  split; [|split].
  - rewrite (surjective_pairing (search_cells _ _ _ _ _)), Hw. reflexivity.
  - rewrite Hb. reflexivity.
  - apply Ht. reflexivity.
Qed.

(** ** C1: the result cap *)

(** C1, on the code.  No multi-cell search returns a combined result.  A
    search is subdivided when its radius exceeds the threshold, and then
    [subdivide_area] raises [NameError] before the first cell is searched:
    [_search_subdivided_area] raises, whatever the pages would show and
    whatever the cap, and so does [search] for every location that
    resolves. *)
Theorem search_subdivided_raises (config : Config) (page : Browser)
    (params : SearchParameters) (w : World) :
  subdivision_threshold config < radius_km params ->
  _search_subdivided_area config page params w = Py.Raise Py.NameError /\
  (forall (location : LocationInput) (loc : option Location),
     _process_location config location = Py.Ok loc ->
     search config page (query params) location (Some (radius_km params))
       (Some (max_results params)) w = Py.Raise Py.NameError).
Proof.
  intros H.
  assert (Hany : forall p : SearchParameters,
            radius_km p = radius_km params ->
            _search_subdivided_area config page p w = Py.Raise Py.NameError).
  { intros p Hp. rewrite search_subdivided_unfold.
    destruct (cells_of_outcomes config p) as [[Hle _]|[_ ->]]; [|reflexivity].
    rewrite Hp in Hle. exfalso. apply (Qlt_not_le _ _ H Hle). }
  split; [apply Hany; reflexivity|].
  intros location loc Hloc. unfold search. rewrite Hloc. cbn [Py.bind].
  destruct (Qle_bool (radius_km params) (subdivision_threshold config)) eqn:E.
  - apply Qle_bool_iff in E. exfalso. apply (Qlt_not_le _ _ H E).
  - cbn [negb]. apply Hany. reflexivity.
Qed.

Lemma search_subdivided_raises_witness :
  _search_subdivided_area DEFAULT_CONFIG (browser_of cafe_pages) (wide_search 3) [] =
    Py.Raise Py.NameError /\
  (forall (location : LocationInput) (loc : option Location),
     _process_location DEFAULT_CONFIG location = Py.Ok loc ->
     search DEFAULT_CONFIG (browser_of cafe_pages) (query (wide_search 3)) location
       (Some (radius_km (wide_search 3))) (Some (max_results (wide_search 3))) [] =
       Py.Raise Py.NameError).
Proof.
  apply (search_subdivided_raises DEFAULT_CONFIG (browser_of cafe_pages)
           (wide_search 3) []).
  reflexivity.
Defined.

(** The loop itself, had the subdivision returned two cells: the cap is
    compared only after the businesses of a cell were added, and nothing
    is cut afterwards.  With a cap of 5, a first cell showing four listings
    and a second showing five others, the loop ends with nine. *)
Lemma search_cells_overshoots :
  exists (combined : SearchResult) (w' : World),
    search_cells (browser_of crowded_pages) (wide_search 5)
      [(75 # 10, 807 # 10, 20); (76 # 10, 807 # 10, 20)]
      (SearchResult_new (wide_search 5)) [] = (combined, w') /\
    max_results (wide_search 5) = 5%Z /\
    Py.len (businesses combined) = 9%Z /\
    List.length w' = 2%nat.
Proof. eexists _, _. split; [vm_compute; reflexivity|]. repeat split. Qed.

(** ** C7: first cell wins *)

(** C7, on the code.  The scenario of two cells that each return a
    "Cafe X" needs a radius above the threshold, 30 km under the default
    configuration; there the search raises [NameError], whatever the pages
    would show, and no combined result holds the earlier cell's record.
    No run of the subdivided search has an earlier and a later cell:
    whenever [_search_subdivided_area] returns, the radius is within the
    threshold, exactly one search was dispatched, for the whole disc, and
    the combined businesses are the first-seen merge of that one
    response. *)
Theorem search_subdivided_no_later_cell (page : Browser) (w : World) :
  search DEFAULT_CONFIG page "cafe" LocNone (Some 30) None w =
    Py.Raise Py.NameError /\
  _search_subdivided_area DEFAULT_CONFIG page (wide_search 120) w =
    Py.Raise Py.NameError /\
  (forall (config : Config) (params : SearchParameters)
          (combined : SearchResult) (w' : World),
     _search_subdivided_area config page params w = Py.Ok (combined, w') ->
     radius_km params <= subdivision_threshold config /\
     w' = w ++ [sub_params_of params (whole_cell params)] /\
     businesses combined =
       merge [] (businesses (session_result page (List.length w)
                               (sub_params_of params (whole_cell params))))).
Proof.
  assert (Hwide : _search_subdivided_area DEFAULT_CONFIG page (wide_search 120) w =
                  Py.Raise Py.NameError).
  { rewrite search_subdivided_unfold.
    destruct (cells_of_outcomes DEFAULT_CONFIG (wide_search 120))
      as [[Hle _]|[_ ->]]; [|reflexivity].
    exfalso. apply (Qlt_not_le 20 30); [reflexivity|exact Hle]. }
  split; [exact Hwide|]. split; [exact Hwide|].
  intros config params combined w'. rewrite search_subdivided_unfold.
  destruct (cells_of_outcomes config params) as [[Hle ->]|[_ ->]];
    [|discriminate].
  destruct (search_cells_single page params (whole_cell params) w)
    as [combined' [Hrun [Hb _]]].
  rewrite Hrun. intros [= <- <-]. auto.
Qed.

Lemma search_subdivided_no_later_cell_witness :
  search DEFAULT_CONFIG (browser_of cafe_pages) "cafe" LocNone (Some 30) None [] =
    Py.Raise Py.NameError /\
  exists (combined : SearchResult) (w' : World),
    _search_subdivided_area DEFAULT_CONFIG (browser_of cafe_pages)
      (near_search 10) [] = Py.Ok (combined, w') /\
    radius_km (near_search 10) <= subdivision_threshold DEFAULT_CONFIG /\
    w' = [] ++ [sub_params_of (near_search 10) (whole_cell (near_search 10))] /\
    businesses combined =
      merge [] (businesses (session_result (browser_of cafe_pages)
                              (List.length (@nil SearchParameters))
                              (sub_params_of (near_search 10)
                                 (whole_cell (near_search 10))))).
Proof.
  destruct (search_subdivided_no_later_cell (browser_of cafe_pages) [])
    as [Hraise [_ Hone]].
  split; [exact Hraise|].
  eexists _, _. split; [vm_compute; reflexivity|].
  apply (Hone DEFAULT_CONFIG (near_search 10)).
  vm_compute; reflexivity.
Defined.

(** ** C3: an unresolved location *)

Lemma match_city_none (cities : list City) (location : string) :
  (forall c : City, In c cities ->
     Py.lower (city_name c) <> Py.lower location) ->
  match_city cities location = None.
Proof.
  induction cities as [|c cs IH]; simpl; intros H; [reflexivity|].
  destruct (String.eqb (Py.lower (city_name c)) (Py.lower location)) eqn:E.
  - apply String.eqb_eq in E. exfalso. apply (H c); [left; reflexivity|exact E].
  - apply IH. intros c' Hin. apply H. right. exact Hin.
Qed.

Lemma match_district_none (ds : list string) (location : string) :
  (forall d : string, In d ds -> Py.lower d <> Py.lower location) ->
  match_district ds location = None.
Proof.
  induction ds as [|d ds IH]; simpl; intros H; [reflexivity|].
  destruct (String.eqb (Py.lower d) (Py.lower location)) eqn:E.
  - apply String.eqb_eq in E. exfalso. apply (H d); [left; reflexivity|exact E].
  - apply IH. intros d' Hin. apply H. right. exact Hin.
Qed.

(** A string matching neither list resolves to [None]. *)
Lemma process_location_unresolved (config : Config) (location : string) :
  (forall c : City, In c (major_cities config) ->
     Py.lower (city_name c) <> Py.lower location) ->
  (forall d : string, In d (districts config) ->
     Py.lower d <> Py.lower location) ->
  _process_location config (LocStr location) = Py.Ok None.
Proof.
  intros Hc Hd. unfold _process_location.
  rewrite (match_city_none _ _ Hc), (match_district_none _ _ Hd). reflexivity.
Qed.

(** The whole search then runs exactly as if no location had been given:
    the location text reaches neither the query nor any other field of the
    dispatched parameters. *)
Lemma search_unresolved_as_none (config : Config) (page : Browser)
    (query location : string) (radius_km : option Q) (max_results : option Z)
    (w : World) :
  (forall c : City, In c (major_cities config) ->
     Py.lower (city_name c) <> Py.lower location) ->
  (forall d : string, In d (districts config) ->
     Py.lower d <> Py.lower location) ->
  search config page query (LocStr location) radius_km max_results w =
  search config page query LocNone radius_km max_results w.
Proof.
  intros Hc Hd. unfold search.
  rewrite (process_location_unresolved config location Hc Hd). reflexivity.
Qed.

(** C3, on the code.  For the location text "Nonexistent Town", which
    matches no major city and no district, the resolver returns [None] and
    the search is still executed; but the one search dispatched carries
    the query "restaurants" unchanged and no location, and the whole call
    is indistinguishable from the call without a location: the text is
    dropped, not merged into the query. *)
Theorem search_unresolved_location_dropped (page : Browser) (w : World) :
  _process_location DEFAULT_CONFIG (LocStr "Nonexistent Town") = Py.Ok None /\
  search DEFAULT_CONFIG page "restaurants" (LocStr "Nonexistent Town")
    (Some 5) (Some 10%Z) w =
    Py.Ok (session_result page (List.length w)
             (SearchParameters_new "restaurants" None 5 10),
           w ++ [SearchParameters_new "restaurants" None 5 10]) /\
  search DEFAULT_CONFIG page "restaurants" (LocStr "Nonexistent Town")
    (Some 5) (Some 10%Z) w =
  search DEFAULT_CONFIG page "restaurants" LocNone (Some 5) (Some 10%Z) w.
Proof. repeat split. Qed.

(** ** C4: calls that break the contract *)

(** C4 as stated fails: the empty query with radius 0, and a query
    with radius -3, are each dispatched to the collaborator as they are. *)
Lemma search_accepts_contract_violations :
  search DEFAULT_CONFIG quiet_page "" LocNone (Some 0) None [] =
    Py.Ok (session_result quiet_page 0 (SearchParameters_new "" None 0 120),
           [SearchParameters_new "" None 0 120]) /\
  search DEFAULT_CONFIG quiet_page "cafe" LocNone (Some (-3)) None [] =
    Py.Ok (session_result quiet_page 0 (SearchParameters_new "cafe" None (-3) 120),
           [SearchParameters_new "cafe" None (-3) 120]).
Proof. split; reflexivity. Qed.

(** C4, amended.  A call with an empty query or with a zero or negative
    radius, whose radius is within the subdivision threshold and whose
    location resolves without error, is not rejected: exactly one
    collaborator search is dispatched, carrying the query and the radius
    as they were given, and its result is returned. *)
Theorem search_dispatches_unvalidated (config : Config) (page : Browser)
    (query : string) (location : LocationInput) (loc : option Location)
    (r : Q) (max_results : option Z) (w : World) :
  query = "" \/ r <= 0 ->
  r <= subdivision_threshold config ->
  _process_location config location = Py.Ok loc ->
  let cap :=
    match max_results with
    | Some m => m
    | None => max_results_per_query config
    end in
  search config page query location (Some r) max_results w =
    Py.Ok (session_result page (List.length w)
             (SearchParameters_new query loc r cap),
           w ++ [SearchParameters_new query loc r cap]).
Proof.
  intros _ Hle Hloc cap. unfold search. rewrite Hloc. cbn [Py.bind].
  apply Qle_bool_iff in Hle. rewrite Hle. reflexivity.
Qed.

Lemma search_dispatches_unvalidated_witness :
  search DEFAULT_CONFIG quiet_page "" LocNone (Some 0) None [] =
    Py.Ok (session_result quiet_page (List.length (@nil SearchParameters))
             (SearchParameters_new "" None 0 (max_results_per_query DEFAULT_CONFIG)),
           [] ++ [SearchParameters_new "" None 0
                    (max_results_per_query DEFAULT_CONFIG)]).
Proof.
  apply (search_dispatches_unvalidated DEFAULT_CONFIG quiet_page "" LocNone None
           0 None []).
  - left. reflexivity.
  - discriminate.
  - reflexivity.
Defined.

End OrchestratorProps.

(* ================================================================== *)
(** * The matcher against regular languages                             *)
(* ================================================================== *)

Module ReProps.

Import Re Notions.

Lemma rmatch_Repeat_S (n : nat) (r : regex) (s : list ascii) :
  rmatch (Repeat (S n) r) s = flat_map (rmatch r) (rmatch (Repeat n r) s).
Proof. reflexivity. Qed.

(** Every suffix the matcher leaves is what remains of [s] after a text
    of the language. *)
Lemma rmatch_sound (r : regex) :
  forall s rest : list ascii,
    In rest (rmatch r s) -> exists m, s = m ++ rest /\ matches r m.
Proof.
  induction r as [|c|ranges|r1 IH1 r2 IH2|r1 IH1 r2 IH2|n r IH]; intros s rest Hin.
  - destruct Hin as [<-|[]]. exists []. split; [reflexivity|constructor].
  - destruct s as [|x t]; simpl in Hin; [contradiction|].
    destruct (Ascii.eqb x c) eqn:E; [|contradiction].
    apply Ascii.eqb_eq in E. subst x. destruct Hin as [<-|[]].
    exists [c]. split; [reflexivity|constructor].
  - destruct s as [|x t]; simpl in Hin; [contradiction|].
    destruct (in_class x ranges) eqn:E; [|contradiction].
    destruct Hin as [<-|[]]. exists [x]. split; [reflexivity|].
    constructor. exact E.
  - simpl in Hin. apply in_flat_map in Hin as [mid [H1 H2]].
    destruct (IH1 _ _ H1) as [m1 [-> M1]].
    destruct (IH2 _ _ H2) as [m2 [-> M2]].
    exists (m1 ++ m2). split; [apply app_assoc|constructor; assumption].
  - simpl in Hin. apply in_app_iff in Hin as [H|H].
    + destruct (IH1 _ _ H) as [m [-> M]]. exists m. split; [reflexivity|].
      apply MAltL. exact M.
    + destruct (IH2 _ _ H) as [m [-> M]]. exists m. split; [reflexivity|].
      apply MAltR. exact M.
  - revert rest Hin. induction n as [|n IHn]; intros rest Hin.
    + destruct Hin as [<-|[]]. exists []. split; [reflexivity|constructor].
    + rewrite rmatch_Repeat_S in Hin. apply in_flat_map in Hin as [mid [H1 H2]].
      destruct (IHn _ H1) as [m1 [-> M1]].
      destruct (IH _ _ H2) as [m2 [-> M2]].
      exists (m1 ++ m2). split; [apply app_assoc|constructor; assumption].
Qed.

(** Every text of the language at the head of [s] is found. *)
Lemma rmatch_complete (r : regex) (m : list ascii) :
  matches r m -> forall rest : list ascii, In rest (rmatch r (m ++ rest)).
Proof.
  induction 1 as [|c|ranges c Hc|r1 r2 m1 m2 _ IH1 _ IH2|r1 r2 m _ IH
                 |r1 r2 m _ IH|r|n r m1 m2 _ IH1 _ IH2]; intros rest.
  - left. reflexivity.
  - simpl. rewrite Ascii.eqb_refl. left. reflexivity.
  - simpl. rewrite Hc. left. reflexivity.
  - simpl. apply in_flat_map. exists (m2 ++ rest). split.
    + rewrite <- app_assoc. apply IH1.
    + apply IH2.
  - simpl. apply in_app_iff. left. apply IH.
  - simpl. apply in_app_iff. right. apply IH.
  - left. reflexivity.
  - rewrite rmatch_Repeat_S. apply in_flat_map. exists (m2 ++ rest). split.
    + rewrite <- app_assoc. apply IH1.
    + apply IH2.
Qed.

(** What [match_here] returns is a text of the language at the head of
    [s]. *)
Lemma match_here_sound (r : regex) (s m : list ascii) :
  match_here r s = Some m -> exists rest, s = m ++ rest /\ matches r m.
Proof.
  unfold match_here. destruct (rmatch r s) as [|rest others] eqn:E; [discriminate|].
  intros [= <-].
  destruct (rmatch_sound r s rest) as [m [-> M]]; [rewrite E; left; reflexivity|].
  exists rest. split; [|].
  - rewrite length_app, Nat.add_sub, firstn_app, Nat.sub_diag, firstn_all.
    simpl. rewrite app_nil_r. reflexivity.
  - rewrite length_app, Nat.add_sub, firstn_app, Nat.sub_diag, firstn_all.
    simpl. rewrite app_nil_r. exact M.
Qed.

(** An alternation yields a match of its left branch, or, when the left
    branch finds nothing, one of its right branch. *)
Lemma match_here_Alt (r1 r2 : regex) (s m : list ascii) :
  match_here (Alt r1 r2) s = Some m ->
  match_here r1 s = Some m \/ (rmatch r1 s = [] /\ match_here r2 s = Some m).
Proof.
  unfold match_here. simpl. destruct (rmatch r1 s) as [|rest others]; simpl.
  - intros H. right. split; [reflexivity|exact H].
  - intros H. left. exact H.
Qed.

(** A text of the language at the head of [s] makes the matcher succeed. *)
Lemma rmatch_nonempty (r : regex) (m rest : list ascii) :
  matches r m -> rmatch r (m ++ rest) <> [].
Proof.
  intros M E. pose proof (rmatch_complete r m M rest) as Hin.
  rewrite E in Hin. contradiction.
Qed.

(** Every match reported by the scan is a match at some position. *)
Lemma scan_sound (r : regex) (s : list ascii) (skip : nat) (m : list ascii) :
  In m (scan r s skip) -> exists s', match_here r s' = Some m.
Proof.
  revert skip. induction s as [|c t IH]; intros skip Hin.
  - simpl in Hin. destruct skip; [|contradiction].
    destruct (match_here r []) as [m'|] eqn:E; [|contradiction].
    destruct Hin as [<-|[]]. exists []. exact E.
  - simpl in Hin. destruct skip as [|k]; [|apply (IH k Hin)].
    destruct (match_here r (c :: t)) as [m'|] eqn:E.
    + destruct Hin as [<-|Hin]; [exists (c :: t); exact E|apply (IH _ Hin)].
    + apply (IH _ Hin).
Qed.

End ReProps.

(* ================================================================== *)
(** * What the phone patterns can extract                               *)
(* ================================================================== *)

Module ExtractionProps.

Import Re Helpers Notions ReProps.
Local Open Scope string_scope.
Local Open Scope list_scope.

(** ** Character classes *)

Lemma in_range_bounds (c lo hi : ascii) :
  in_range c (lo, hi) = true <->
  (nat_of_ascii lo <= nat_of_ascii c <= nat_of_ascii hi)%nat.
Proof.
  unfold in_range. cbn [fst snd]. rewrite andb_true_iff, !Nat.leb_le. tauto.
Qed.

Lemma in_class_Exists (c : ascii) (ranges : list (ascii * ascii)) :
  in_class c ranges = true <->
  Exists (fun r => (nat_of_ascii (fst r) <= nat_of_ascii c <= nat_of_ascii (snd r))%nat)
         ranges.
Proof.
  unfold in_class. rewrite existsb_exists, Exists_exists.
  split; intros [[lo hi] [Hin H]]; exists (lo, hi); (split; [exact Hin|]);
    apply in_range_bounds; exact H.
Qed.

Lemma isdigit_bounds (c : ascii) :
  Py.isdigit c = true <-> (48 <= nat_of_ascii c <= 57)%nat.
Proof.
  unfold Py.isdigit. cbv zeta. rewrite andb_true_iff, !Nat.leb_le. tauto.
Qed.

Lemma digit_class_isdigit (c : ascii) :
  in_class c [("0"%char, "9"%char)] = Py.isdigit c.
Proof.
  apply eq_true_iff_eq. rewrite in_class_Exists, isdigit_bounds, Exists_cons, Exists_nil.
  cbn [fst snd]. change (nat_of_ascii "0") with 48%nat.
  change (nat_of_ascii "9") with 57%nat. tauto.
Qed.

Lemma char_of_code (c : ascii) (n : nat) :
  nat_of_ascii c = n -> c = ascii_of_nat n.
Proof. intros <-. symmetry. apply ascii_nat_embedding. Qed.

Lemma isdigit_keep (c : ascii) : Py.isdigit c = true -> keep_char c = true.
Proof. intros H. unfold keep_char. rewrite H. reflexivity. Qed.

(** The only digit outside 1-9 is 0. *)
Lemma digit_not_nonzero (c : ascii) :
  Py.isdigit c = true ->
  in_class c [("1"%char, "9"%char)] = false ->
  c = "0"%char.
Proof.
  intros Hd Hn. apply isdigit_bounds in Hd.
  apply (char_of_code c 48).
  destruct (Nat.eq_dec (nat_of_ascii c) 48) as [E|E]; [exact E|].
  exfalso. apply not_true_iff_false in Hn. apply Hn.
  apply in_class_Exists. constructor. cbn [fst snd].
  change (nat_of_ascii "1") with 49%nat. change (nat_of_ascii "9") with 57%nat. lia.
Qed.

(** The bracket class of the mobile pattern: a comma or one of eight
    digits. *)
Lemma mobile_class_chars (c : ascii) :
  in_class c [("0"%char, "2"%char); (","%char, ","%char); ("4"%char, "8"%char)] = true ->
  c = ","%char \/
  In c ["0"%char; "1"%char; "2"%char; "4"%char; "5"%char; "6"%char; "7"%char;
        "8"%char].
Proof.
  intros H. apply in_class_Exists in H.
  rewrite !Exists_cons, Exists_nil in H. cbn [fst snd] in H.
  change (nat_of_ascii "0") with 48%nat in H.
  change (nat_of_ascii "2") with 50%nat in H.
  change (nat_of_ascii ",") with 44%nat in H.
  change (nat_of_ascii "4") with 52%nat in H.
  change (nat_of_ascii "8") with 56%nat in H.
  assert (Hn : (nat_of_ascii c = 44 \/ nat_of_ascii c = 48 \/ nat_of_ascii c = 49 \/
                nat_of_ascii c = 50 \/ nat_of_ascii c = 52 \/ nat_of_ascii c = 53 \/
                nat_of_ascii c = 54 \/ nat_of_ascii c = 55 \/ nat_of_ascii c = 56)%nat)
    by lia.
  destruct Hn as [Hn|Hn]; [left; exact (char_of_code c _ Hn)|right].
  repeat (destruct Hn as [Hn|Hn];
          [rewrite (char_of_code c _ Hn); simpl; tauto|]).
  rewrite (char_of_code c _ Hn). simpl. tauto.
Qed.

(** ** Runs of digits *)

Lemma matches_digits (n : nat) (m : list ascii) :
  matches (Repeat n digit) m ->
  List.length m = n /\ forallb Py.isdigit m = true.
Proof.
  revert m. induction n as [|n IH]; intros m H.
  - inversion H; subst. split; reflexivity.
  - inversion H as [| | | | | | |n' r m1 m2 H1 H2]; subst.
    inversion H2 as [| |ranges c Hc| | | | |]; subst.
    rewrite digit_class_isdigit in Hc.
    destruct (IH _ H1) as [Hl Hd].
    rewrite length_app, forallb_app, Hl, Hd, Nat.add_1_r. simpl.
    rewrite Hc. split; reflexivity.
Qed.

Lemma digits_match (ds : list ascii) :
  forallb Py.isdigit ds = true -> matches (Repeat (List.length ds) digit) ds.
Proof.
  induction ds as [|d ds IH] using rev_ind; intros H.
  - constructor.
  - rewrite forallb_app in H. apply andb_true_iff in H as [H1 H2].
    simpl in H2. rewrite andb_true_r in H2.
    rewrite length_app, Nat.add_1_r. constructor; [apply IH, H1|].
    constructor. rewrite digit_class_isdigit. exact H2.
Qed.

(** ** The shapes of the three patterns *)

Ltac invert_matches :=
  repeat match goal with
         | H : matches Eps _ |- _ => inversion H; clear H; subst
         | H : matches (Lit _) _ |- _ => inversion H; clear H; subst
         | H : matches (Class _) _ |- _ => inversion H; clear H; subst
         | H : matches (Seq _ _) _ |- _ => inversion H; clear H; subst
         | H : matches (Alt _ _) _ |- _ => inversion H; clear H; subst
         end.

Lemma sl_prefix_shape (k : regex) (m : list ascii) :
  matches (sl_prefix k) m ->
  exists pre body : list ascii,
    m = pre ++ body /\
    (pre = ["+"%char; "9"%char; "4"%char] \/ pre = ["0"%char]) /\
    matches k body.
Proof.
  unfold sl_prefix. cbn [lit]. intros H.
  inversion H as [| | |r1 r2 pre body Hpre Hbody| | | |]; subst. clear H.
  exists pre, body. split; [reflexivity|]. split; [|exact Hbody].
  clear Hbody. invert_matches; [left|right]; reflexivity.
Qed.

Lemma mobile_shape (m : list ascii) :
  matches SL_MOBILE_PATTERN m ->
  exists (pre : list ascii) (c : ascii) (ds : list ascii),
    m = pre ++ "7"%char :: c :: ds /\
    (pre = ["+"%char; "9"%char; "4"%char] \/ pre = ["0"%char]) /\
    in_class c [("0"%char, "2"%char); (","%char, ","%char); ("4"%char, "8"%char)] = true /\
    List.length ds = 7%nat /\ forallb Py.isdigit ds = true.
Proof.
  intros H. apply sl_prefix_shape in H as [pre [body [-> [Hpre H]]]].
  inversion H as [| | |r1 r2 m1 m2 H1 H2| | | |]; subst. clear H.
  inversion H2 as [| | |r1 r2 m3 ds H3 H4| | | |]; subst. clear H2.
  apply matches_digits in H4 as [Hl Hd].
  inversion H1; subst. clear H1.
  inversion H3 as [| |ranges c Hc| | | | |]; subst. clear H3.
  exists pre, c, ds. repeat split; auto.
Qed.

Lemma landline_shape (m : list ascii) :
  matches SL_LANDLINE_PATTERN m ->
  exists (pre : list ascii) (d1 d2 : ascii) (ds : list ascii),
    m = pre ++ d1 :: d2 :: ds /\
    (pre = ["+"%char; "9"%char; "4"%char] \/ pre = ["0"%char]) /\
    Py.isdigit d1 = true /\ Py.isdigit d2 = true /\
    List.length ds = 6%nat /\ forallb Py.isdigit ds = true.
Proof.
  intros H. apply sl_prefix_shape in H as [pre [body [-> [Hpre H]]]].
  inversion H as [| | |r1 r2 m1 ds H1 H2| | | |]; subst.
  apply matches_digits in H2 as [Hl Hd].
  inversion H1 as [| | |r1 r2 m3 m4 H3 H4| | | |]; subst.
  inversion H3 as [| |ranges1 d1 Hd1| | | | |]; subst.
  inversion H4 as [| |ranges2 d2 Hd2| | | | |]; subst.
  rewrite digit_class_isdigit in Hd2.
  exists pre, d1, d2, ds. repeat split; auto.
  apply isdigit_bounds. apply in_class_Exists in Hd1.
  rewrite Exists_cons, Exists_nil in Hd1. cbn [fst snd] in Hd1.
  change (nat_of_ascii "1") with 49%nat in Hd1.
  change (nat_of_ascii "9") with 57%nat in Hd1. lia.
Qed.

Lemma general_shape (m : list ascii) :
  matches SL_GENERAL_PATTERN m ->
  exists pre ds : list ascii,
    m = pre ++ ds /\
    (pre = ["+"%char; "9"%char; "4"%char] \/ pre = ["0"%char]) /\
    List.length ds = 9%nat /\ forallb Py.isdigit ds = true.
Proof.
  intros H. apply sl_prefix_shape in H as [pre [body [-> [Hpre H]]]].
  apply matches_digits in H as [Hl Hd]. exists pre, body. auto.
Qed.

(** A prefix followed by a non-zero digit and seven more digits is taken
    by the landline pattern. *)
Lemma landline_takes (pre : list ascii) (d1 d2 : ascii) (ds rest : list ascii) :
  pre = ["+"%char; "9"%char; "4"%char] \/ pre = ["0"%char] ->
  in_class d1 [("1"%char, "9"%char)] = true ->
  Py.isdigit d2 = true ->
  List.length ds = 6%nat -> forallb Py.isdigit ds = true ->
  rmatch SL_LANDLINE_PATTERN ((pre ++ d1 :: d2 :: ds) ++ rest) <> [].
Proof.
  intros Hpre H1 H2 Hl Hd. apply rmatch_nonempty.
  unfold SL_LANDLINE_PATTERN, sl_prefix. constructor.
  - destruct Hpre as [->| ->].
    + apply MAltL. cbn [lit].
      change ["+"%char; "9"%char; "4"%char]
        with (["+"%char] ++ ["9"%char] ++ ["4"%char] ++ []).
      repeat constructor.
    + apply MAltR. constructor.
  - change (d1 :: d2 :: ds) with (([d1] ++ [d2]) ++ ds). constructor.
    + constructor; constructor; [exact H1|].
      rewrite digit_class_isdigit. exact H2.
    + rewrite <- Hl. apply digits_match, Hd.
Qed.

(** ** Normalising a candidate *)

Lemma filter_digits_string (ds : list ascii) :
  forallb Py.isdigit ds = true ->
  Py.filter keep_char (string_of_list_ascii ds) = string_of_list_ascii ds.
Proof.
  induction ds as [|d ds IH]; simpl; [reflexivity|].
  intros H. apply andb_true_iff in H as [Hd Hds].
  rewrite (isdigit_keep d Hd), (IH Hds). reflexivity.
Qed.

Lemma length_string_of_list (l : list ascii) :
  String.length (string_of_list_ascii l) = List.length l.
Proof. induction l as [|c l IH]; simpl; [reflexivity|]. rewrite IH. reflexivity. Qed.

Lemma string_of_list_app (l1 l2 : list ascii) :
  string_of_list_ascii (l1 ++ l2) =
  (string_of_list_ascii l1 ++ string_of_list_ascii l2)%string.
Proof. induction l1 as [|c l1 IH]; simpl; [reflexivity|]. rewrite IH. reflexivity. Qed.

(** Whatever prefix a candidate was matched with, its normal form starts
    with +94 and goes on with the kept characters of the rest. *)
Lemma normalize_prefixed (pre body : list ascii) :
  pre = ["+"%char; "9"%char; "4"%char] \/ pre = ["0"%char] ->
  normalize (string_of_list_ascii (pre ++ body)) =
  ("+94" ++ Py.filter keep_char (string_of_list_ascii body))%string.
Proof.
  intros [->| ->]; reflexivity.
Qed.

(** The three outcomes of validating a candidate, by the characters after
    the prefix. *)

Lemma short_candidate_rejected (raw : string) (digits : list ascii) :
  normalize raw = ("+94" ++ string_of_list_ascii digits)%string ->
  List.length digits = 8%nat ->
  validate_sri_lankan_phone (normalize raw) =
    (false, MetaError "Invalid length or country code").
Proof.
  intros Hn Hl. apply PhoneProps.validate_invalid.
  rewrite PhoneProps.normalize_idempotent, Hn.
  apply andb_false_iff. right. apply Nat.eqb_neq.
  cbn [String.append String.length]. rewrite length_string_of_list, Hl. discriminate.
Qed.

Lemma nine_digit_candidate (raw : string) (d1 d2 : ascii) (digits : list ascii) :
  normalize raw = ("+94" ++ string_of_list_ascii (d1 :: d2 :: digits))%string ->
  List.length digits = 7%nat ->
  validate_sri_lankan_phone (normalize raw) =
    (true,
     MetaPhone (Py.str_in (String d1 (String d2 "")) mobile_prefixes)
       (Py.dict_get landline_regions (String d1 (String d2 "")))
       (normalize raw)
       ("0" ++ string_of_list_ascii (d1 :: d2 :: digits))%string).
Proof.
  intros Hn Hl.
  rewrite PhoneProps.validate_valid; rewrite PhoneProps.normalize_idempotent, Hn.
  - destruct digits; reflexivity.
  - reflexivity.
  - cbn [String.append String.length string_of_list_ascii].
    rewrite length_string_of_list, Hl. reflexivity.
Qed.

(** ** What a candidate can be *)

Ltac explode ds Hl :=
  repeat (destruct ds as [|? ds]; [discriminate Hl|]);
  destruct ds; [|discriminate Hl].

Ltac explode_digits ds Hl Hd :=
  explode ds Hl;
  cbn [forallb] in Hd;
  repeat (let H := fresh "Hdigit" in apply andb_true_iff in Hd as [H Hd]).

(** A match of the combined pattern, once normalised, is rejected by the
    validator, or is +94 7x followed by seven digits with 7x a mobile
    prefix, or is +94 0 followed by eight digits. *)
Lemma candidate_cases (s m : list ascii) :
  match_here phone_pattern s = Some m ->
  validate_sri_lankan_phone (normalize (string_of_list_ascii m)) =
    (false, MetaError "Invalid length or country code") \/
  (exists (c : ascii) (digits : list ascii),
     normalize (string_of_list_ascii m) =
       ("+94" ++ string_of_list_ascii ("7"%char :: c :: digits))%string /\
     In c ["0"%char; "1"%char; "2"%char; "4"%char; "5"%char; "6"%char; "7"%char;
           "8"%char] /\
     List.length digits = 7%nat) \/
  (exists (d : ascii) (digits : list ascii),
     normalize (string_of_list_ascii m) =
       ("+94" ++ string_of_list_ascii ("0"%char :: d :: digits))%string /\
     List.length digits = 7%nat).
Proof.
  unfold phone_pattern. intros H.
  apply match_here_Alt in H as [H|[_ H]].
  { (* the mobile pattern *)
    apply match_here_sound in H as [rest [_ H]].
    apply mobile_shape in H as [pre [c [ds [-> [Hpre [Hc [Hl Hd]]]]]]].
    rewrite (normalize_prefixed pre _ Hpre).
    apply mobile_class_chars in Hc as [->|Hc].
    - left.
      assert (E : ("+94" ++ Py.filter keep_char
                     (string_of_list_ascii ("7"%char :: ","%char :: ds)))%string =
                  ("+94" ++ string_of_list_ascii ("7"%char :: ds))%string).
      { cbn [string_of_list_ascii Py.filter].
        change (keep_char "7") with true. change (keep_char ",") with false.
        cbn iota. rewrite (filter_digits_string ds Hd). reflexivity. }
      rewrite <- (normalize_prefixed pre _ Hpre) in E |- *.
      apply (short_candidate_rejected _ ("7"%char :: ds) E).
      simpl. rewrite Hl. reflexivity.
    - right. left. exists c, ds. split; [|split; assumption].
      assert (Hk : Py.isdigit c = true).
      { simpl in Hc. repeat (destruct Hc as [<-|Hc]; [reflexivity|]). contradiction. }
      cbn [string_of_list_ascii Py.filter].
      change (keep_char "7") with true. cbn iota.
      rewrite (isdigit_keep c Hk), (filter_digits_string ds Hd). reflexivity. }
  apply match_here_Alt in H as [H|[Hland H]].
  { (* the landline pattern: one digit short *)
    apply match_here_sound in H as [rest [_ H]].
    apply landline_shape in H as [pre [d1 [d2 [ds [-> [Hpre [H1 [H2 [Hl Hd]]]]]]]]].
    left.
    assert (E : normalize (string_of_list_ascii (pre ++ d1 :: d2 :: ds)) =
                ("+94" ++ string_of_list_ascii (d1 :: d2 :: ds))%string).
    { rewrite (normalize_prefixed pre _ Hpre).
      rewrite (filter_digits_string (d1 :: d2 :: ds)); [reflexivity|].
      simpl. rewrite H1, H2, Hd. reflexivity. }
    apply (short_candidate_rejected _ (d1 :: d2 :: ds) E).
    simpl. rewrite Hl. reflexivity. }
  (* the general pattern, reached only when the landline pattern fails *)
  apply match_here_sound in H as [rest [Hs H]].
  apply general_shape in H as [pre [ds [-> [Hpre [Hl Hd]]]]].
  rewrite (normalize_prefixed pre _ Hpre), (filter_digits_string ds Hd).
  explode_digits ds Hl Hd.
  right. right. exists a0, [a1; a2; a3; a4; a5; a6; a7].
  split; [|reflexivity].
  assert (Hzero : a = "0"%char).
  { apply digit_not_nonzero; [assumption|].
    destruct (in_class a [("1"%char, "9"%char)]) eqn:E; [|reflexivity].
    exfalso.
    apply (landline_takes pre a a0 [a1; a2; a3; a4; a5; a6] (a7 :: rest) Hpre E);
      try assumption; try reflexivity.
    - simpl. rewrite Hdigit1, Hdigit2, Hdigit3, Hdigit4, Hdigit5, Hdigit6. reflexivity.
    - rewrite <- Hland. f_equal. rewrite Hs, <- !app_assoc. reflexivity. }
  rewrite Hzero. reflexivity.
Qed.

(** Every candidate is +94 followed by eight or nine digits. *)
Lemma candidate_form (s m : list ascii) :
  match_here phone_pattern s = Some m ->
  exists digits : list ascii,
    normalize (string_of_list_ascii m) = ("+94" ++ string_of_list_ascii digits)%string /\
    forallb Py.isdigit digits = true /\
    (List.length digits = 8%nat \/ List.length digits = 9%nat).
Proof.
  intros H. apply match_here_sound in H as [rest [_ H]].
  unfold phone_pattern in H.
  inversion H as [| | | |r1 r2 m' H'|r1 r2 m' H'| |]; subst; clear H.
  - apply mobile_shape in H' as [pre [c [ds [-> [Hpre [Hc [Hl Hd]]]]]]].
    rewrite (normalize_prefixed pre _ Hpre).
    apply mobile_class_chars in Hc as [->|Hc].
    + exists ("7"%char :: ds). cbn [string_of_list_ascii Py.filter].
      change (keep_char "7") with true. change (keep_char ",") with false.
      cbn iota. rewrite (filter_digits_string ds Hd).
      split; [reflexivity|]. split; [exact Hd|]. left. simpl. rewrite Hl. reflexivity.
    + assert (Hk : Py.isdigit c = true).
      { simpl in Hc. repeat (destruct Hc as [<-|Hc]; [reflexivity|]). contradiction. }
      exists ("7"%char :: c :: ds).
      assert (Hall : forallb Py.isdigit ("7"%char :: c :: ds) = true)
        by (simpl; rewrite Hk, Hd; reflexivity).
      rewrite (filter_digits_string _ Hall).
      split; [reflexivity|]. split; [exact Hall|]. right. simpl. rewrite Hl. reflexivity.
  - inversion H' as [| | | |r1 r2 m'' H''|r1 r2 m'' H''| |]; subst; clear H'.
    + apply landline_shape in H'' as [pre [d1 [d2 [ds [-> [Hpre [H1 [H2 [Hl Hd]]]]]]]]].
      rewrite (normalize_prefixed pre _ Hpre).
      assert (Hall : forallb Py.isdigit (d1 :: d2 :: ds) = true)
        by (simpl; rewrite H1, H2, Hd; reflexivity).
      exists (d1 :: d2 :: ds). rewrite (filter_digits_string _ Hall).
      split; [reflexivity|]. split; [exact Hall|]. left. simpl. rewrite Hl. reflexivity.
    + apply general_shape in H'' as [pre [ds [-> [Hpre [Hl Hd]]]]].
      rewrite (normalize_prefixed pre _ Hpre), (filter_digits_string ds Hd).
      exists ds. auto.
Qed.

Lemma In_extract (text phone : string) :
  In phone (extract_phone_numbers text) ->
  exists s m : list ascii,
    match_here phone_pattern s = Some m /\
    phone = normalize (string_of_list_ascii m).
Proof.
  unfold extract_phone_numbers, findall. cbv zeta. rewrite map_map.
  intros H. apply in_map_iff in H as [m [<- Hin]].
  apply scan_sound in Hin as [s Hs]. exists s, m. split; [exact Hs|reflexivity].
Qed.

(** ** The candidates of [extract_phone_numbers] *)

(** X1. Every candidate that [extract_phone_numbers] returns, whatever the
    text, is +94 followed by eight or nine digits: twelve characters at
    most, and eleven when the landline pattern or a comma was matched. *)
Theorem extract_phone_numbers_candidates (text phone : string) :
  In phone (extract_phone_numbers text) ->
  exists digits : list ascii,
    phone = ("+94" ++ string_of_list_ascii digits)%string /\
    forallb Py.isdigit digits = true /\
    (String.length phone = 11%nat \/ String.length phone = 12%nat).
Proof.
  intros H. apply In_extract in H as [s [m [Hm ->]]].
  destruct (candidate_form s m Hm) as [digits [E [Hd Hl]]].
  exists digits. split; [exact E|]. split; [exact Hd|].
  rewrite E. cbn [String.append String.length]. rewrite length_string_of_list.
  destruct Hl as [-> | ->]; [left|right]; reflexivity.
Qed.

Lemma extract_phone_numbers_candidates_witness :
  exists digits : list ascii,
    "+9411234567" = ("+94" ++ string_of_list_ascii digits)%string /\
    forallb Py.isdigit digits = true /\
    (String.length "+9411234567" = 11%nat \/ String.length "+9411234567" = 12%nat).
Proof.
  apply (extract_phone_numbers_candidates "Office: 0112345678" "+9411234567").
  left. reflexivity.
Defined.

(** ** The phone numbers attached to a business *)

Lemma In_phones_from_text (text : string) (p : Models.PhoneNumber) :
  In p (Scraper.phones_from_text text) ->
  exists (phone : string) (mobile : bool) (reg : option string)
         (normalized local : string),
    In phone (extract_phone_numbers text) /\
    validate_sri_lankan_phone phone = (true, MetaPhone mobile reg normalized local) /\
    p = Models.PhoneNumber_new normalized (Some mobile) true reg.
Proof.
  unfold Scraper.phones_from_text. intros H.
  apply in_flat_map in H as [phone [Hin H]].
  destruct (validate_sri_lankan_phone phone) as [[|] [e|mobile reg normalized local]]
    eqn:E; simpl in H; try contradiction.
  destruct H as [<-|[]]. exists phone, mobile, reg, normalized, local. auto.
Qed.

(** The facts about an attached phone number, for the proofs below. *)
Lemma attached_phone_facts (text : string) (p : Models.PhoneNumber) :
  In p (Scraper.phones_from_text text) ->
  Models.is_validated p = true /\
  Models.region p = None /\
  String.length (Models.number p) = 12%nat /\
  Py.startswith (Models.number p) "+94" = true /\
  ((Models.is_mobile p = Some true /\
    In (Py.slice 3 5 (Models.number p))
       ["70"; "71"; "72"; "74"; "75"; "76"; "77"; "78"]%string) \/
   (Models.is_mobile p = Some false /\
    Py.startswith (Py.slice_from 3 (Models.number p)) "0" = true)).
Proof.
  intros H.
  apply In_phones_from_text in H
    as [phone [mobile [reg [normalized [local [Hin [Hv ->]]]]]]].
  apply In_extract in Hin as [s [m [Hm ->]]].
  cbn [Models.PhoneNumber_new Models.is_validated Models.region Models.number
       Models.is_mobile].
  rewrite PhoneProps.post_init_number_normalize.
  destruct (candidate_cases s m Hm) as [Hrej|[[c [ds [E [Hc Hl]]]]|[d [ds [E Hl]]]]].
  - rewrite Hrej in Hv. discriminate.
  - rewrite (nine_digit_candidate _ "7"%char c ds E Hl) in Hv.
    injection Hv as <- <- <- _.
    rewrite PhoneProps.normalize_idempotent, E.
    explode ds Hl.
    simpl in Hc.
    repeat (destruct Hc as [<-|Hc];
            [repeat split; try reflexivity; left; split; [reflexivity|simpl; tauto]|]).
    contradiction.
  - rewrite (nine_digit_candidate _ "0"%char d ds E Hl) in Hv.
    injection Hv as <- <- <- _.
    rewrite PhoneProps.normalize_idempotent, E.
    explode ds Hl.
    repeat split; try reflexivity. right. split; reflexivity.
Qed.

(** X2. For every ASCII text of the phone button (the texts on which [\d]
    and [str.isdigit] are the digits 0 to 9), every phone number that the
    extraction attaches to a business is validated, has the twelve
    characters +94 and nine digits, and has no region; it is either a
    mobile number with one of the eight mobile prefixes, or a number whose
    area code starts with 0.  No landline number with a known area code is
    ever attached. *)
Theorem phones_from_text_outcomes (text : string) (p : Models.PhoneNumber) :
  Py.isascii text = true ->
  In p (Scraper.phones_from_text text) ->
  Models.is_validated p = true /\
  Models.region p = None /\
  String.length (Models.number p) = 12%nat /\
  Py.startswith (Models.number p) "+94" = true /\
  ((Models.is_mobile p = Some true /\
    In (Py.slice 3 5 (Models.number p))
       ["70"; "71"; "72"; "74"; "75"; "76"; "77"; "78"]%string) \/
   (Models.is_mobile p = Some false /\
    Py.startswith (Py.slice_from 3 (Models.number p)) "0" = true)).
Proof. intros _. apply attached_phone_facts. Qed.

Lemma phones_from_text_outcomes_witness :
  Models.is_validated (Models.PhoneNumber_new "+94712345678" (Some true) true None) = true /\
  Models.region (Models.PhoneNumber_new "+94712345678" (Some true) true None) = None /\
  String.length
    (Models.number (Models.PhoneNumber_new "+94712345678" (Some true) true None)) = 12%nat /\
  Py.startswith
    (Models.number (Models.PhoneNumber_new "+94712345678" (Some true) true None)) "+94" = true /\
  ((Models.is_mobile (Models.PhoneNumber_new "+94712345678" (Some true) true None) = Some true /\
    In (Py.slice 3 5
          (Models.number (Models.PhoneNumber_new "+94712345678" (Some true) true None)))
       ["70"; "71"; "72"; "74"; "75"; "76"; "77"; "78"]%string) \/
   (Models.is_mobile (Models.PhoneNumber_new "+94712345678" (Some true) true None) = Some false /\
    Py.startswith
      (Py.slice_from 3
         (Models.number (Models.PhoneNumber_new "+94712345678" (Some true) true None)))
      "0" = true)).
Proof.
  apply (phones_from_text_outcomes "Call 0712345678 now").
  - reflexivity.
  - left. reflexivity.
Defined.

(** ** A text that is one number *)

Lemma prefix_unique (pre pre' x y : list ascii) :
  pre = ["+"%char; "9"%char; "4"%char] \/ pre = ["0"%char] ->
  pre' = ["+"%char; "9"%char; "4"%char] \/ pre' = ["0"%char] ->
  pre ++ x = pre' ++ y -> pre = pre' /\ x = y.
Proof.
  intros [->| ->] [->| ->] H; simpl in H; try discriminate;
    injection H as <-; auto.
Qed.

Lemma match_here_length (s m : list ascii) :
  match_here phone_pattern s = Some m -> (9 <= List.length m)%nat.
Proof.
  intros H. apply match_here_sound in H as [rest [_ H]].
  unfold phone_pattern in H.
  inversion H as [| | | |r1 r2 m' H'|r1 r2 m' H'| |]; subst; clear H.
  - apply mobile_shape in H' as [pre [c [ds [-> [Hpre [_ [Hl _]]]]]]].
    rewrite length_app. simpl. lia.
  - inversion H' as [| | | |r1 r2 m'' H''|r1 r2 m'' H''| |]; subst; clear H'.
    + apply landline_shape in H'' as [pre [d1 [d2 [ds [-> [Hpre [_ [_ [Hl _]]]]]]]]].
      rewrite length_app. simpl. destruct Hpre as [->| ->]; simpl; lia.
    + apply general_shape in H'' as [pre [ds [-> [_ [Hl _]]]]].
      rewrite length_app. lia.
Qed.

Lemma match_here_short (s : list ascii) :
  (List.length s < 9)%nat -> match_here phone_pattern s = None.
Proof.
  intros Hs. destruct (match_here phone_pattern s) as [m|] eqn:E; [|reflexivity].
  pose proof (match_here_length s m E) as Hm.
  apply match_here_sound in E as [rest [-> _]]. rewrite length_app in Hs. lia.
Qed.

Lemma scan_short (s : list ascii) (skip : nat) :
  (List.length s < 9)%nat -> scan phone_pattern s skip = [].
Proof.
  revert skip. induction s as [|c t IH]; intros skip Hs.
  - cbn [scan]. rewrite (match_here_short [] Hs). destruct skip; reflexivity.
  - cbn [scan]. destruct skip as [|k]; [|apply IH; simpl in Hs; lia].
    rewrite (match_here_short (c :: t) Hs). apply IH. simpl in Hs. lia.
Qed.

Lemma scan_skip (r : regex) (l1 l2 : list ascii) :
  scan r (l1 ++ l2) (List.length l1) = scan r l2 0.
Proof. induction l1 as [|c l1 IH]; [reflexivity|exact IH]. Qed.

(** A match at the head followed by fewer than nine characters is the only
    match. *)
Lemma scan_one (s m rest : list ascii) :
  match_here phone_pattern s = Some m ->
  s = m ++ rest -> (List.length rest < 9)%nat ->
  scan phone_pattern s 0 = [m].
Proof.
  intros Hm -> Hrest. pose proof (match_here_length _ _ Hm) as Hlen.
  destruct m as [|c m']; [simpl in Hlen; lia|].
  cbn [app scan]. cbn [app] in Hm. rewrite Hm. f_equal.
  cbn [List.length]. rewrite Nat.sub_succ, Nat.sub_0_r, scan_skip.
  apply scan_short, Hrest.
Qed.

Lemma match_here_Some_or (r : regex) (s : list ascii) :
  rmatch r s <> [] -> exists m, match_here r s = Some m.
Proof.
  unfold match_here. destruct (rmatch r s); [congruence|]. eauto.
Qed.

Lemma nonzero_digit_class (d : ascii) :
  Py.isdigit d = true -> d <> "0"%char ->
  in_class d [("1"%char, "9"%char)] = true.
Proof.
  intros Hd Hz. destruct (in_class d [("1"%char, "9"%char)]) eqn:E; [reflexivity|].
  exfalso. apply Hz. apply digit_not_nonzero; assumption.
Qed.

(** At the head of a prefix, a non-zero digit, a digit and seven more
    digits that do not form a mobile number, the match is the landline
    pattern's: it stops one digit early. *)
Lemma landline_match (pre : list ascii) (d1 d2 : ascii) (ds : list ascii) :
  pre = ["+"%char; "9"%char; "4"%char] \/ pre = ["0"%char] ->
  Py.isdigit d1 = true -> d1 <> "0"%char ->
  Py.isdigit d2 = true ->
  List.length ds = 7%nat -> forallb Py.isdigit ds = true ->
  ~ (d1 = "7"%char /\
     In d2 ["0"%char; "1"%char; "2"%char; "4"%char; "5"%char; "6"%char; "7"%char;
            "8"%char]) ->
  match_here phone_pattern (pre ++ d1 :: d2 :: ds) =
    Some (pre ++ d1 :: d2 :: firstn 6 ds).
Proof.
  intros Hpre H1 Hz H2 Hl Hd Hnot.
  explode_digits ds Hl Hd. cbn [firstn].
  assert (Htakes : rmatch SL_LANDLINE_PATTERN
                     (pre ++ [d1; d2; a; a0; a1; a2; a3; a4; a5]) <> []).
  { change (pre ++ [d1; d2; a; a0; a1; a2; a3; a4; a5])
      with (pre ++ [d1; d2; a; a0; a1; a2; a3; a4] ++ [a5]).
    rewrite app_assoc.
    apply landline_takes; try assumption; try reflexivity.
    - apply nonzero_digit_class; assumption.
    - simpl. rewrite Hdigit, Hdigit0, Hdigit1, Hdigit2, Hdigit3, Hdigit4. reflexivity. }
  destruct (match_here_Some_or phone_pattern (pre ++ [d1; d2; a; a0; a1; a2; a3; a4; a5]))
    as [m Hm].
  { unfold phone_pattern. cbn [rmatch]. intros E.
    apply app_eq_nil in E as [_ E]. apply app_eq_nil in E as [E _]. contradiction. }
  rewrite Hm. f_equal.
  unfold phone_pattern in Hm. apply match_here_Alt in Hm as [Hm|[_ Hm]].
  { exfalso. apply match_here_sound in Hm as [rest [Hs Hm]].
    apply mobile_shape in Hm as [pre' [c [ds' [-> [Hpre' [Hc _]]]]]].
    rewrite <- app_assoc in Hs.
    apply (prefix_unique pre pre' _ _ Hpre Hpre') in Hs as [_ Hs].
    injection Hs as -> -> _. apply Hnot. split; [reflexivity|].
    apply mobile_class_chars in Hc as [->|Hc]; [discriminate H2|exact Hc]. }
  apply match_here_Alt in Hm as [Hm|[Hnone _]]; [|contradiction].
  apply match_here_sound in Hm as [rest [Hs Hm]].
  apply landline_shape in Hm as [pre' [b1 [b2 [ds' [-> [Hpre' [_ [_ [Hl' _]]]]]]]]].
  rewrite <- app_assoc in Hs.
  apply (prefix_unique pre pre' _ _ Hpre Hpre') in Hs as [<- Hs].
  explode ds' Hl'. simpl in Hs. injection Hs as <- <- <- <- <- <- <- <- _.
  reflexivity.
Qed.

(** At the head of a prefix, 7, a mobile digit and seven more digits, the
    match is the whole number. *)
Lemma mobile_match (pre : list ascii) (c : ascii) (ds : list ascii) :
  pre = ["+"%char; "9"%char; "4"%char] \/ pre = ["0"%char] ->
  In c ["0"%char; "1"%char; "2"%char; "4"%char; "5"%char; "6"%char; "7"%char;
        "8"%char] ->
  List.length ds = 7%nat -> forallb Py.isdigit ds = true ->
  match_here phone_pattern (pre ++ "7"%char :: c :: ds) =
    Some (pre ++ "7"%char :: c :: ds).
Proof.
  intros Hpre Hc Hl Hd.
  assert (Hclass : in_class c [("0"%char, "2"%char); (","%char, ","%char);
                               ("4"%char, "8"%char)] = true).
  { simpl in Hc. repeat (destruct Hc as [<-|Hc]; [reflexivity|]). contradiction. }
  assert (Hin : matches SL_MOBILE_PATTERN (pre ++ "7"%char :: c :: ds)).
  { unfold SL_MOBILE_PATTERN, sl_prefix. constructor.
    - destruct Hpre as [->| ->].
      + apply MAltL. cbn [lit].
        change ["+"%char; "9"%char; "4"%char]
          with (["+"%char] ++ ["9"%char] ++ ["4"%char] ++ []).
        repeat constructor.
      + apply MAltR. constructor.
    - change ("7"%char :: c :: ds) with (["7"%char] ++ [c] ++ ds).
      constructor; [constructor|]. constructor; [constructor; exact Hclass|].
      rewrite <- Hl. apply digits_match, Hd. }
  pose proof (rmatch_nonempty SL_MOBILE_PATTERN _ [] Hin) as Hne.
  rewrite app_nil_r in Hne.
  destruct (match_here_Some_or phone_pattern (pre ++ "7"%char :: c :: ds)) as [m Hm].
  { unfold phone_pattern. cbn [rmatch]. intros E.
    apply app_eq_nil in E as [E _]. contradiction. }
  rewrite Hm. f_equal.
  unfold phone_pattern in Hm. apply match_here_Alt in Hm as [Hm|[Hnone _]];
    [|contradiction].
  apply match_here_sound in Hm as [rest [Hs Hm]].
  apply mobile_shape in Hm as [pre' [c' [ds' [-> [Hpre' [_ [Hl' _]]]]]]].
  rewrite <- app_assoc in Hs.
  apply (prefix_unique pre pre' _ _ Hpre Hpre') in Hs as [<- Hs].
  simpl in Hs. injection Hs as <- Hs.
  assert (rest = []).
  { apply (f_equal (@List.length _)) in Hs. rewrite length_app in Hs.
    destruct rest; [reflexivity|simpl in Hs; lia]. }
  subst rest. rewrite app_nil_r in Hs. subst ds'. reflexivity.
Qed.

Lemma extract_of_scan (l : list ascii) :
  extract_phone_numbers (string_of_list_ascii l) =
  map (fun m => normalize (string_of_list_ascii m)) (scan phone_pattern l 0).
Proof.
  unfold extract_phone_numbers, findall. cbv zeta.
  rewrite map_map, list_ascii_of_string_of_list_ascii. reflexivity.
Qed.

(** X3. A landline number written alone, in local or international form (a
    non-zero digit, a digit and seven more digits that do not start with a
    mobile code), loses its last digit in [extract_phone_numbers]: the one
    candidate returned has eleven characters, the validator rejects it, and
    no phone number is attached. *)
Theorem landline_number_not_extracted (pre : list ascii) (d1 d2 : ascii)
    (ds : list ascii) :
  pre = ["+"%char; "9"%char; "4"%char] \/ pre = ["0"%char] ->
  Py.isdigit d1 = true -> d1 <> "0"%char ->
  Py.isdigit d2 = true ->
  List.length ds = 7%nat -> forallb Py.isdigit ds = true ->
  ~ (d1 = "7"%char /\
     In d2 ["0"%char; "1"%char; "2"%char; "4"%char; "5"%char; "6"%char; "7"%char;
            "8"%char]) ->
  extract_phone_numbers (string_of_list_ascii (pre ++ d1 :: d2 :: ds)) =
    [("+94" ++ string_of_list_ascii (d1 :: d2 :: firstn 6 ds))%string] /\
  Scraper.phones_from_text (string_of_list_ascii (pre ++ d1 :: d2 :: ds)) = [].
Proof.
  intros Hpre H1 Hz H2 Hl Hd Hnot.
  pose proof (landline_match pre d1 d2 ds Hpre H1 Hz H2 Hl Hd Hnot) as Hm.
  assert (Hdigits : forallb Py.isdigit (d1 :: d2 :: firstn 6 ds) = true).
  { explode_digits ds Hl Hd. simpl.
    rewrite H1, H2, Hdigit, Hdigit0, Hdigit1, Hdigit2, Hdigit3, Hdigit4. reflexivity. }
  assert (Hnorm : normalize (string_of_list_ascii (pre ++ d1 :: d2 :: firstn 6 ds)) =
                  ("+94" ++ string_of_list_ascii (d1 :: d2 :: firstn 6 ds))%string).
  { rewrite (normalize_prefixed pre _ Hpre), (filter_digits_string _ Hdigits).
    reflexivity. }
  assert (Hext : extract_phone_numbers (string_of_list_ascii (pre ++ d1 :: d2 :: ds)) =
                 [normalize (string_of_list_ascii (pre ++ d1 :: d2 :: firstn 6 ds))]).
  { rewrite extract_of_scan.
    rewrite (scan_one _ (pre ++ d1 :: d2 :: firstn 6 ds) (skipn 6 ds) Hm).
    - reflexivity.
    - rewrite <- app_assoc. cbn [app]. rewrite firstn_skipn. reflexivity.
    - rewrite length_skipn, Hl. simpl. lia. }
  split; [rewrite Hext, Hnorm; reflexivity|].
  unfold Scraper.phones_from_text. rewrite Hext. cbn [flat_map].
  rewrite (short_candidate_rejected _ (d1 :: d2 :: firstn 6 ds) Hnorm).
  - reflexivity.
  - explode ds Hl. reflexivity.
Qed.

Lemma landline_number_not_extracted_witness :
  extract_phone_numbers "0112345678" = ["+9411234567"%string] /\
  Scraper.phones_from_text "0112345678" = [].
Proof.
  apply (landline_number_not_extracted ["0"%char] "1"%char "1"%char
           ["2"%char; "3"%char; "4"%char; "5"%char; "6"%char; "7"%char; "8"%char]).
  - right. reflexivity.
  - reflexivity.
  - discriminate.
  - reflexivity.
  - reflexivity.
  - reflexivity.
  - intros [H _]. discriminate H.
Defined.

(** X4. A mobile number written alone, in local or international form (7, one
    of the digits 0 1 2 4 5 6 7 8, and seven more digits), is extracted
    whole: exactly one phone number is attached, +94 and the nine digits,
    validated, mobile, without region. *)
Theorem mobile_number_extracted (pre : list ascii) (c : ascii) (ds : list ascii) :
  pre = ["+"%char; "9"%char; "4"%char] \/ pre = ["0"%char] ->
  In c ["0"%char; "1"%char; "2"%char; "4"%char; "5"%char; "6"%char; "7"%char;
        "8"%char] ->
  List.length ds = 7%nat -> forallb Py.isdigit ds = true ->
  Scraper.phones_from_text (string_of_list_ascii (pre ++ "7"%char :: c :: ds)) =
    [Models.mkPhoneNumber ("+94" ++ string_of_list_ascii ("7"%char :: c :: ds))%string
       (Some true) true None].
Proof.
  intros Hpre Hc Hl Hd.
  pose proof (mobile_match pre c ds Hpre Hc Hl Hd) as Hm.
  assert (Hk : Py.isdigit c = true).
  { simpl in Hc. repeat (destruct Hc as [<-|Hc]; [reflexivity|]). contradiction. }
  assert (Hdigits : forallb Py.isdigit ("7"%char :: c :: ds) = true)
    by (simpl; rewrite Hk, Hd; reflexivity).
  assert (Hnorm : normalize (string_of_list_ascii (pre ++ "7"%char :: c :: ds)) =
                  ("+94" ++ string_of_list_ascii ("7"%char :: c :: ds))%string).
  { rewrite (normalize_prefixed pre _ Hpre), (filter_digits_string _ Hdigits).
    reflexivity. }
  unfold Scraper.phones_from_text. rewrite extract_of_scan.
  rewrite (scan_one _ (pre ++ "7"%char :: c :: ds) [] Hm);
    [|rewrite app_nil_r; reflexivity|simpl; lia].
  cbn [map flat_map].
  rewrite (nine_digit_candidate _ "7"%char c ds Hnorm Hl).
  assert (Hmob : Py.str_in (String "7" (String c "")) mobile_prefixes = true).
  { simpl in Hc. repeat (destruct Hc as [<-|Hc]; [reflexivity|]). contradiction. }
  rewrite Hmob. cbn [Py.dict_get landline_regions String.eqb Ascii.eqb].
  unfold Models.PhoneNumber_new.
  rewrite PhoneProps.post_init_number_normalize, PhoneProps.normalize_idempotent, Hnorm.
  reflexivity.
Qed.

Lemma mobile_number_extracted_witness :
  Scraper.phones_from_text "+94771234567" =
    [Models.mkPhoneNumber "+94771234567" (Some true) true None].
Proof.
  apply (mobile_number_extracted ["+"%char; "9"%char; "4"%char] "7"%char
           ["1"%char; "2"%char; "3"%char; "4"%char; "5"%char; "6"%char; "7"%char]).
  - left. reflexivity.
  - simpl. tauto.
  - reflexivity.
  - reflexivity.
Defined.

End ExtractionProps.

(* ================================================================== *)
(** * Phone formats, and the statistics of the test script              *)
(* ================================================================== *)

Module FormatProps.

Import Helpers Notions.
Local Open Scope string_scope.

Lemma startswith_split (s p : string) :
  Py.startswith s p = true -> s = p ++ Py.slice_from (String.length p) s.
Proof.
  revert s. induction p as [|a p IH]; intros s H; [reflexivity|].
  destruct s as [|b s]; [discriminate H|]. cbn [Py.startswith] in H.
  apply andb_true_iff in H as [Hb Hs]. apply Ascii.eqb_eq in Hb. subst b.
  cbn [String.length Py.slice_from String.append]. f_equal. apply IH, Hs.
Qed.

Lemma filter_app (f : ascii -> bool) (s t : string) :
  Py.filter f (s ++ t) = Py.filter f s ++ Py.filter f t.
Proof.
  induction s as [|c s IH]; [reflexivity|]. cbn [String.append Py.filter].
  destruct (f c); [cbn [String.append]|]; rewrite IH; reflexivity.
Qed.

(** The trunk form and the international form of the same rest have the
    same normal form. *)
Lemma normalize_trunk_international (s : string) :
  normalize ("0" ++ s) = normalize ("+94" ++ s) /\
  normalize ("0" ++ s) = "+94" ++ Py.filter keep_char s.
Proof. split; reflexivity. Qed.

(** The local format of a number that starts with +94, normalised again,
    is the number. *)
Lemma normalize_local_of_international (n : string) :
  only_phone_chars n = true -> Py.startswith n "+94" = true ->
  normalize ("0" ++ Py.slice_from 3 n) = n.
Proof.
  intros Hk Hp. destruct (normalize_trunk_international (Py.slice_from 3 n)) as [_ ->].
  rewrite PhoneProps.filter_fixed
    by (apply PhoneProps.only_phone_chars_slice_from; exact Hk).
  symmetry. apply (startswith_split n "+94" Hp).
Qed.

(** X5. Round trip through the local format: a phone number rebuilt from the
    local format of a constructed [PhoneNumber] has the same number, for
    every raw text. *)
Theorem local_format_round_trip (raw : string) (mobile : option bool)
    (validated : bool) (reg : option string) :
  Models.number
    (Models.PhoneNumber_new
       (Models.to_local_format (Models.PhoneNumber_new raw mobile validated reg))
       mobile validated reg) =
  Models.number (Models.PhoneNumber_new raw mobile validated reg).
Proof.
  change (normalize (Models.to_local_format
                       (Models.PhoneNumber_new raw mobile validated reg)) =
          normalize raw).
  unfold Models.to_local_format.
  change (Models.number (Models.PhoneNumber_new raw mobile validated reg))
    with (normalize raw).
  destruct (Py.startswith (normalize raw) "+94") eqn:E.
  - apply normalize_local_of_international;
      [apply PhoneProps.normalize_only_phone_chars|exact E].
  - apply PhoneProps.normalize_idempotent.
Qed.

(** The local format of a constructed number never starts with +94: it
    starts with the trunk digit 0 when the number is a +94 number, and is
    the number itself otherwise. *)
Lemma local_format_shape (raw : string) (mobile : option bool)
    (validated : bool) (reg : option string) :
  let p := Models.PhoneNumber_new raw mobile validated reg in
  Py.startswith (Models.to_local_format p) "+94" = false /\
  (Py.startswith (Models.number p) "+94" = true ->
   Py.startswith (Models.to_local_format p) "0" = true /\
   String.length (Models.to_local_format p) = (String.length (Models.number p) - 2)%nat) /\
  (Py.startswith (Models.number p) "+94" = false ->
   Models.to_local_format p = Models.number p).
Proof.
  cbv zeta. unfold Models.to_local_format.
  change (Models.number (Models.PhoneNumber_new raw mobile validated reg))
    with (normalize raw).
  destruct (Py.startswith (normalize raw) "+94") eqn:E.
  - split; [reflexivity|]. split; [|discriminate]. intros _. split; [reflexivity|].
    rewrite (startswith_split _ "+94" E) at 2.
    cbn [String.append String.length]. lia.
  - split; [exact E|]. split; [discriminate|reflexivity].
Qed.

(** The validator looks at the digits and plus signs only, and does not
    tell the trunk form from the international form: a raw text and its
    kept characters validate alike, and so do 0 and +94 in front of the
    same rest. *)
Lemma validate_ignores_format (raw rest : string) :
  validate_sri_lankan_phone raw =
    validate_sri_lankan_phone (Py.filter keep_char raw) /\
  validate_sri_lankan_phone ("0" ++ rest) =
    validate_sri_lankan_phone ("+94" ++ rest).
Proof.
  split.
  - unfold validate_sri_lankan_phone, normalize.
    rewrite (PhoneProps.filter_fixed _ (PhoneProps.filter_only_phone_chars raw)).
    reflexivity.
  - unfold validate_sri_lankan_phone.
    destruct (normalize_trunk_international rest) as [-> _]. reflexivity.
Qed.

Lemma twelve_characters (n : string) :
  String.length n = 12%nat ->
  exists c1 c2 c3 c4 c5 c6 c7 c8 c9 c10 c11 c12 : ascii,
    n = String c1 (String c2 (String c3 (String c4 (String c5 (String c6
          (String c7 (String c8 (String c9 (String c10 (String c11
          (String c12 ""))))))))))).
Proof.
  intros H.
  do 12 (destruct n as [|? n]; [discriminate H|]).
  destruct n; [|discriminate H]. repeat eexists.
Qed.

(** X6. For an accepted number, the [local_format] of the metadata is the
    trunk digit and the nine characters after +94: ten characters, the
    length the configuration gives for mobile and landline numbers; it is
    what [PhoneNumber.to_local_format] returns for the phone number built
    from [normalized], and normalising it gives [normalized] back. *)
Theorem validate_local_format (raw : string) (mobile : bool)
    (reg : option string) (normalized local : string) :
  validate_sri_lankan_phone raw = (true, MetaPhone mobile reg normalized local) ->
  String.length local = 10%nat /\
  Py.startswith local "0" = true /\
  local = Models.to_local_format
            (Models.PhoneNumber_new normalized (Some mobile) true reg) /\
  normalize local = normalized.
Proof.
  intros H.
  assert (Hv : fst (validate_sri_lankan_phone raw) = true) by (rewrite H; reflexivity).
  apply PhoneProps.validate_accepts_iff in Hv as [Hp Hl].
  rewrite (PhoneProps.validate_valid raw Hp Hl) in H.
  assert (En : normalized = normalize raw) by congruence.
  assert (El : local = "0" ++ Py.slice_from 3 (normalize raw)) by congruence.
  subst normalized local. clear H.
  pose proof (PhoneProps.normalize_only_phone_chars raw) as Hk.
  split; [|split; [reflexivity|split]].
  - pose proof (f_equal String.length (startswith_split _ "+94" Hp)) as E.
    rewrite Hl in E. cbn [String.append String.length] in E |- *. lia.
  - change (Models.to_local_format
              (Models.PhoneNumber_new (normalize raw) (Some mobile) true reg))
      with (if Py.startswith (normalize (normalize raw)) "+94"
            then "0" ++ Py.slice_from 3 (normalize (normalize raw))
            else normalize (normalize raw)).
    rewrite PhoneProps.normalize_idempotent, Hp. reflexivity.
  - apply normalize_local_of_international; assumption.
Qed.

Lemma validate_local_format_witness :
  String.length "0812234567" = 10%nat /\
  Py.startswith "0812234567" "0" = true /\
  "0812234567" = Models.to_local_format
                   (Models.PhoneNumber_new "+94812234567" (Some false) true (Some "Kandy")) /\
  normalize "0812234567" = "+94812234567".
Proof.
  apply (validate_local_format "081 223 4567" false (Some "Kandy")
           "+94812234567" "0812234567").
  reflexivity.
Defined.

(** ** The test script against the validator *)

Lemma str_in_keys {V : Type} (d : list (string * V)) (k : string) :
  Py.str_in k (map fst d) =
  match Py.dict_get d k with Some _ => true | None => false end.
Proof.
  induction d as [|[k' v] d IH]; [reflexivity|].
  cbn [map fst Py.str_in existsb Py.dict_get]. rewrite String.eqb_sym.
  destruct (String.eqb k' k); [reflexivity|]. exact IH.
Qed.

(** X7. The test script counts a number that the validator accepted, in its
    international form as well as in its local form, as valid exactly when
    the validator classified it mobile or found a region for it. *)
Theorem script_counts_accepted (raw : string) (mobile : bool)
    (reg : option string) (normalized local : string) :
  validate_sri_lankan_phone raw = (true, MetaPhone mobile reg normalized local) ->
  ValidateData.counts_as_valid normalized =
    (mobile || match reg with Some _ => true | None => false end) /\
  ValidateData.counts_as_valid local =
    (mobile || match reg with Some _ => true | None => false end).
Proof.
  intros H.
  assert (Hv : fst (validate_sri_lankan_phone raw) = true) by (rewrite H; reflexivity).
  apply PhoneProps.validate_accepts_iff in Hv as [Hp Hl].
  rewrite (PhoneProps.validate_valid raw Hp Hl) in H. injection H as <- <- <- <-.
  destruct (twelve_characters _ Hl)
    as [c1 [c2 [c3 [c4 [c5 [c6 [c7 [c8 [c9 [c10 [c11 [c12 E]]]]]]]]]]]].
  rewrite E in Hp |- *. cbn [Py.startswith] in Hp.
  apply andb_true_iff in Hp as [H1 Hp]. apply andb_true_iff in Hp as [H2 Hp].
  apply andb_true_iff in Hp as [H3 _].
  apply Ascii.eqb_eq in H1, H2, H3. subst c1 c2 c3.
  change (Py.slice 3 5 (String "+" (String "9" (String "4" (String c4 (String c5 (String c6
            (String c7 (String c8 (String c9 (String c10 (String c11
            (String c12 ""))))))))))))) with (String c4 (String c5 "")).
  pose proof (str_in_keys landline_regions (String c4 (String c5 ""))) as Hkeys.
  split.
  - unfold ValidateData.counts_as_valid.
    change (Py.startswith (String "+" _) "+94") with true.
    cbn [andb orb String.length Nat.eqb].
    change (Py.slice 3 5 (String "+" (String "9" (String "4" (String c4 (String c5 (String c6
              (String c7 (String c8 (String c9 (String c10 (String c11
              (String c12 ""))))))))))))) with (String c4 (String c5 "")).
    cbv zeta. f_equal. exact Hkeys.
  - change (Py.slice_from 3 (String "+" (String "9" (String "4" (String c4 (String c5 (String c6
              (String c7 (String c8 (String c9 (String c10 (String c11
              (String c12 ""))))))))))))) with (String c4 (String c5 (String c6
              (String c7 (String c8 (String c9 (String c10 (String c11
              (String c12 ""))))))))).
    unfold ValidateData.counts_as_valid.
    cbn [String.append Py.startswith Ascii.eqb Bool.eqb andb orb String.length Nat.eqb
         Py.slice String.substring Nat.sub].
    cbv zeta. f_equal. exact Hkeys.
Qed.

Lemma script_counts_accepted_witness :
  ValidateData.counts_as_valid "+94012345678" =
    (false || match @None string with Some _ => true | None => false end) /\
  ValidateData.counts_as_valid "0012345678" =
    (false || match @None string with Some _ => true | None => false end).
Proof.
  apply (script_counts_accepted "0012345678" false None "+94012345678" "0012345678").
  reflexivity.
Defined.

(** ** The summary of the test script *)

Lemma count_fold (phones : list string) (start : Z) :
  fold_left (fun count phone =>
               if ValidateData.counts_as_valid phone then (count + 1)%Z else count)
            phones start =
  (start + Z.of_nat (List.length (List.filter ValidateData.counts_as_valid phones)))%Z.
Proof.
  revert start. induction phones as [|p ps IH]; intros start; simpl; [lia|].
  rewrite IH. destruct (ValidateData.counts_as_valid p); simpl; lia.
Qed.

(** X8. The summary counts every phone number read, counts as valid those
    that pass the test, and reports their share, a rate between 0 and 1;
    with no phone number at all the rate is 0 and nothing is divided. *)
Theorem validate_phone_numbers_summary (phones : list string) :
  let '(total, valid_count, rate) := ValidateData.validate_phone_numbers phones in
  total = Py.len phones /\
  valid_count = Py.len (List.filter ValidateData.counts_as_valid phones) /\
  (0 <= valid_count <= total)%Z /\
  (0 <= rate /\ rate <= 1)%Q /\
  (phones = [] -> rate = 0%Q).
Proof.
  unfold ValidateData.validate_phone_numbers. cbv zeta. rewrite count_fold.
  cbn [Z.add]. set (valid := List.filter ValidateData.counts_as_valid phones).
  assert (Hle : (List.length valid <= List.length phones)%nat)
    by apply filter_length_le.
  split; [reflexivity|]. split; [reflexivity|]. unfold Py.len.
  split; [lia|]. split.
  - destruct (0 <? Z.of_nat (List.length phones))%Z eqn:E; [|split; discriminate].
    apply Z.ltb_lt in E.
    assert (Hpos : (0 < inject_Z (Z.of_nat (List.length phones)))%Q)
      by (change 0%Q with (inject_Z 0); rewrite <- Zlt_Qlt; exact E).
    split.
    + apply Qle_shift_div_l; [exact Hpos|]. rewrite Qmult_0_l.
      change 0%Q with (inject_Z 0). rewrite <- Zle_Qle. lia.
    + apply Qle_shift_div_r; [exact Hpos|]. rewrite Qmult_1_l.
      rewrite <- Zle_Qle. lia.
  - intros ->. reflexivity.
Qed.

End FormatProps.

(* ================================================================== *)
(** * Places: bounds, districts and the location resolver               *)
(* ================================================================== *)

Module LocationProps.

Import Models Settings Main Helpers Notions.
Local Open Scope string_scope.

Ltac split_bounds H :=
  repeat match type of H with
         | (_ && _)%bool = true =>
             let H1 := fresh "Hb" in
             apply andb_true_iff in H as [H1 H]; split_bounds H1
         | Qle_bool _ _ = true => apply Qle_bool_iff in H
         end.

Ltac solve_bounds :=
  repeat (apply andb_true_iff; split); apply Qle_bool_iff; lra.

(** X9. Coordinates that are given a district lie within the bounds of Sri
    Lanka, and the district is one of the configured districts. *)
Theorem district_within_sri_lanka (lat lng : Q) (d : string) :
  get_district_from_coordinates lat lng = Some d ->
  is_within_sri_lanka lat lng = true /\
  In d (districts DEFAULT_CONFIG).
Proof.
  unfold get_district_from_coordinates, is_within_sri_lanka. cbv zeta.
  destruct (Qle_bool (67 # 10) lat && Qle_bool lat 7 &&
            (Qle_bool (798 # 10) lng && Qle_bool lng 80)) eqn:E1.
  { intros [= <-]. split; [|simpl; tauto]. split_bounds E1. solve_bounds. }
  destruct (Qle_bool (71 # 10) lat && Qle_bool lat (75 # 10) &&
            (Qle_bool (805 # 10) lng && Qle_bool lng (808 # 10))) eqn:E2.
  { intros [= <-]. split; [|simpl; tauto]. split_bounds E2. solve_bounds. }
  destruct (Qle_bool (59 # 10) lat && Qle_bool lat (62 # 10) &&
            (Qle_bool (801 # 10) lng && Qle_bool lng (803 # 10))) eqn:E3.
  { intros [= <-]. split; [|simpl; tauto]. split_bounds E3. solve_bounds. }
  discriminate.
Qed.

Lemma district_within_sri_lanka_witness :
  is_within_sri_lanka (69271 # 10000) (798612 # 10000) = true /\
  In "Colombo" (districts DEFAULT_CONFIG).
Proof.
  apply (district_within_sri_lanka (69271 # 10000) (798612 # 10000) "Colombo").
  reflexivity.
Defined.

Lemma box_false (a b c d lat lng : Q) :
  Qle_bool a lat && Qle_bool lat b && (Qle_bool c lng && Qle_bool lng d) = false ->
  ~ (a <= lat /\ lat <= b /\ c <= lng /\ lng <= d).
Proof.
  intros H [H1 [H2 [H3 H4]]]. apply Qle_bool_iff in H1, H2, H3, H4.
  rewrite H1, H2, H3, H4 in H. discriminate.
Qed.

Lemma box_true (a b c d lat lng : Q) :
  Qle_bool a lat && Qle_bool lat b && (Qle_bool c lng && Qle_bool lng d) = true ->
  a <= lat /\ lat <= b /\ c <= lng /\ lng <= d.
Proof.
  intros H. apply andb_true_iff in H as [H12 H34].
  apply andb_true_iff in H12 as [H1 H2]. apply andb_true_iff in H34 as [H3 H4].
  apply Qle_bool_iff in H1, H2, H3, H4. auto.
Qed.

(** X10. The three district boxes do not overlap, so each district is returned
    exactly for the points of its own box, whatever the order of the
    tests; every other point has no district. *)
Theorem district_boxes (lat lng : Q) :
  (get_district_from_coordinates lat lng = Some "Colombo" <->
   (67 # 10) <= lat /\ lat <= 7 /\ (798 # 10) <= lng /\ lng <= 80) /\
  (get_district_from_coordinates lat lng = Some "Kandy" <->
   (71 # 10) <= lat /\ lat <= (75 # 10) /\ (805 # 10) <= lng /\ lng <= (808 # 10)) /\
  (get_district_from_coordinates lat lng = Some "Galle" <->
   (59 # 10) <= lat /\ lat <= (62 # 10) /\ (801 # 10) <= lng /\ lng <= (803 # 10)) /\
  (forall d : string,
     get_district_from_coordinates lat lng = Some d ->
     d = "Colombo" \/ d = "Kandy" \/ d = "Galle").
Proof.
  unfold get_district_from_coordinates.
  destruct (Qle_bool (67 # 10) lat && Qle_bool lat 7 &&
            (Qle_bool (798 # 10) lng && Qle_bool lng 80)) eqn:E1;
    [apply box_true in E1|apply box_false in E1].
  { repeat split; try discriminate; try tauto; try (intros; exfalso; lra).
    intros d [= <-]. tauto. }
  destruct (Qle_bool (71 # 10) lat && Qle_bool lat (75 # 10) &&
            (Qle_bool (805 # 10) lng && Qle_bool lng (808 # 10))) eqn:E2;
    [apply box_true in E2|apply box_false in E2].
  { repeat split; try discriminate; try tauto; try (intros; exfalso; lra).
    intros d [= <-]. tauto. }
  destruct (Qle_bool (59 # 10) lat && Qle_bool lat (62 # 10) &&
            (Qle_bool (801 # 10) lng && Qle_bool lng (803 # 10))) eqn:E3;
    [apply box_true in E3|apply box_false in E3].
  { repeat split; try discriminate; try tauto; try (intros; exfalso; lra).
    intros d [= <-]. tauto. }
  repeat split; try discriminate; try tauto.
Qed.

(** ** The resolver on strings *)

Lemma match_city_some (cities : list City) (location : string) (l : Location) :
  match_city cities location = Some l ->
  exists c : City,
    In c cities /\ Py.lower (city_name c) = Py.lower location /\
    l = Location_new (city_lat c) (city_lng c) None (Some (city_name c)) None.
Proof.
  induction cities as [|c cs IH]; simpl; [discriminate|].
  destruct (String.eqb (Py.lower (city_name c)) (Py.lower location)) eqn:E.
  - intros [= <-]. apply String.eqb_eq in E. exists c. auto.
  - intros H. destruct (IH H) as [c' [Hin Hc]]. exists c'. tauto.
Qed.

Lemma match_district_some (ds : list string) (location : string) (l : Location) :
  match_district ds location = Some l ->
  exists d : string,
    In d ds /\ Py.lower d = Py.lower location /\
    l = Location_new (75 # 10) (807 # 10) None None (Some d).
Proof.
  induction ds as [|d ds IH]; simpl; [discriminate|].
  destruct (String.eqb (Py.lower d) (Py.lower location)) eqn:E.
  - intros [= <-]. apply String.eqb_eq in E. exists d. auto.
  - intros H. destruct (IH H) as [d' [Hin Hd]]. exists d'. tauto.
Qed.

(** X11. A location resolved from a string under the default configuration lies
    within the bounds of Sri Lanka.  It is either a major city, with the
    city's own coordinates and name and no district, the city list being
    consulted first; or, when no major city matches, a district with the
    district's configured spelling, no city, and the placeholder centre
    (7.5, 80.7), a point that [get_district_from_coordinates] assigns to
    Kandy whatever the district asked for. *)
Theorem process_location_string (s : string) (loc : Location) :
  _process_location DEFAULT_CONFIG (LocStr s) = Py.Ok (Some loc) ->
  is_within_sri_lanka (latitude loc) (longitude loc) = true /\
  country loc = "Sri Lanka" /\
  address loc = None /\
  ((exists c : City,
      In c (major_cities DEFAULT_CONFIG) /\
      Py.lower (city_name c) = Py.lower s /\
      loc = Location_new (city_lat c) (city_lng c) None (Some (city_name c)) None) \/
   (match_city (major_cities DEFAULT_CONFIG) s = None /\
    exists d : string,
      In d (districts DEFAULT_CONFIG) /\
      Py.lower d = Py.lower s /\
      loc = Location_new (75 # 10) (807 # 10) None None (Some d) /\
      get_district_from_coordinates (latitude loc) (longitude loc) = Some "Kandy")).
Proof.
  unfold _process_location.
  destruct (match_city (major_cities DEFAULT_CONFIG) s) as [l|] eqn:Ec.
  - intros [= <-]. apply match_city_some in Ec as [c [Hin [Hlow ->]]].
    split.
    + simpl in Hin.
      repeat (destruct Hin as [<-|Hin]; [reflexivity|]). contradiction.
    + split; [reflexivity|]. split; [reflexivity|]. left. exists c. auto.
  - destruct (match_district (districts DEFAULT_CONFIG) s) as [l|] eqn:Ed;
      [|discriminate].
    intros [= <-]. apply match_district_some in Ed as [d [Hin [Hlow ->]]].
    split; [reflexivity|]. split; [reflexivity|]. split; [reflexivity|].
    right. split; [reflexivity|]. exists d. auto.
Qed.

Lemma process_location_string_witness :
  is_within_sri_lanka
    (latitude (Location_new (75 # 10) (807 # 10) None None (Some "Ampara")))
    (longitude (Location_new (75 # 10) (807 # 10) None None (Some "Ampara"))) = true /\
  country (Location_new (75 # 10) (807 # 10) None None (Some "Ampara")) = "Sri Lanka" /\
  address (Location_new (75 # 10) (807 # 10) None None (Some "Ampara")) = None /\
  ((exists c : City,
      In c (major_cities DEFAULT_CONFIG) /\
      Py.lower (city_name c) = Py.lower "AMPARA" /\
      Location_new (75 # 10) (807 # 10) None None (Some "Ampara") =
        Location_new (city_lat c) (city_lng c) None (Some (city_name c)) None) \/
   (match_city (major_cities DEFAULT_CONFIG) "AMPARA" = None /\
    exists d : string,
      In d (districts DEFAULT_CONFIG) /\
      Py.lower d = Py.lower "AMPARA" /\
      Location_new (75 # 10) (807 # 10) None None (Some "Ampara") =
        Location_new (75 # 10) (807 # 10) None None (Some d) /\
      get_district_from_coordinates
        (latitude (Location_new (75 # 10) (807 # 10) None None (Some "Ampara")))
        (longitude (Location_new (75 # 10) (807 # 10) None None (Some "Ampara")))
        = Some "Kandy")).
Proof.
  apply (process_location_string "AMPARA"
           (Location_new (75 # 10) (807 # 10) None None (Some "Ampara"))).
  reflexivity.
Defined.

Lemma match_city_lower (cities : list City) (s s' : string) :
  Py.lower s = Py.lower s' -> match_city cities s = match_city cities s'.
Proof.
  intros H. induction cities as [|c cs IH]; simpl; [reflexivity|].
  rewrite H, IH. reflexivity.
Qed.

Lemma match_district_lower (ds : list string) (s s' : string) :
  Py.lower s = Py.lower s' -> match_district ds s = match_district ds s'.
Proof.
  intros H. induction ds as [|d ds IH]; simpl; [reflexivity|].
  rewrite H, IH. reflexivity.
Qed.

Lemma lower_char_idempotent (c : ascii) :
  Py.lower_char (Py.lower_char c) = Py.lower_char c.
Proof.
  assert (Hcases : Py.lower_char c = c \/
                   (Py.lower_char c = ascii_of_nat (nat_of_ascii c + 32) /\
                    (65 <= nat_of_ascii c <= 90)%nat)).
  { unfold Py.lower_char. cbv zeta.
    destruct ((65 <=? nat_of_ascii c)%nat && (nat_of_ascii c <=? 90)%nat) eqn:E;
      [right|left; reflexivity].
    apply andb_true_iff in E as [H1 H2]. apply Nat.leb_le in H1, H2. auto. }
  destruct Hcases as [E|[E Hc]]; rewrite E; [exact E|].
  unfold Py.lower_char. cbv zeta. rewrite nat_ascii_embedding by lia.
  replace ((65 <=? nat_of_ascii c + 32)%nat && (nat_of_ascii c + 32 <=? 90)%nat)
    with false; [reflexivity|].
  symmetry. apply andb_false_iff. right. apply Nat.leb_gt. lia.
Qed.

Lemma lower_idempotent (s : string) : Py.lower (Py.lower s) = Py.lower s.
Proof.
  induction s as [|c s IH]; [reflexivity|]. cbn [Py.lower].
  rewrite lower_char_idempotent, IH. reflexivity.
Qed.

(** X12. The resolver is case-insensitive, for every configuration: two
    strings with the same lower-case form resolve alike, and so a string
    resolves like its own lower-case form. *)
Theorem process_location_case_insensitive (config : Config) (s s' : string) :
  (Py.lower s = Py.lower s' ->
   _process_location config (LocStr s) = _process_location config (LocStr s')) /\
  _process_location config (LocStr (Py.lower s)) = _process_location config (LocStr s).
Proof.
  assert (H : forall a b, Py.lower a = Py.lower b ->
              _process_location config (LocStr a) = _process_location config (LocStr b)).
  { intros a b E. unfold _process_location.
    rewrite (match_city_lower _ a b E), (match_district_lower _ a b E). reflexivity. }
  split; [apply H|]. apply H, lower_idempotent.
Qed.

(** ** The resolver on dictionaries *)

(** X13. A dictionary whose coordinates are the numbers under [lat] and [lng]
    (no [latitude] or [longitude] key): it resolves to the location with
    these coordinates and the city and district texts of the dictionary,
    unless one of the two numbers is zero, in which case [lat or latitude]
    takes it for missing and the dictionary resolves to nothing. *)
Theorem process_location_dict (config : Config) (d : list (string * PyValue))
    (x y : Q) :
  Py.dict_get d "lat" = Some (VNum x) ->
  Py.dict_get d "lng" = Some (VNum y) ->
  Py.dict_get d "latitude" = None ->
  Py.dict_get d "longitude" = None ->
  _process_location config (LocDict d) =
    Py.Ok (if Qeq_bool x 0 || Qeq_bool y 0 then None
           else Some (Location_new x y None
                        (opt_text (Py.dict_get d "city"))
                        (opt_text (Py.dict_get d "district")))).
Proof.
  intros Hx Hy Hlat Hlng. unfold _process_location, py_or.
  rewrite Hx, Hy, Hlat, Hlng. cbn [truthy].
  destruct (Qeq_bool x 0), (Qeq_bool y 0); reflexivity.
Qed.

Lemma process_location_dict_witness :
  _process_location DEFAULT_CONFIG
    (LocDict [("lat", VNum 0); ("lng", VNum (798612 # 10000)); ("city", VStr "Null Island")]) =
    Py.Ok (if Qeq_bool 0 0 || Qeq_bool (798612 # 10000) 0 then None
           else Some (Location_new 0 (798612 # 10000) None
                        (opt_text (Py.dict_get [("lat", VNum 0); ("lng", VNum (798612 # 10000));
                                                ("city", VStr "Null Island")] "city"))
                        (opt_text (Py.dict_get [("lat", VNum 0); ("lng", VNum (798612 # 10000));
                                                ("city", VStr "Null Island")] "district")))).
Proof.
  apply (process_location_dict DEFAULT_CONFIG
           [("lat", VNum 0); ("lng", VNum (798612 # 10000)); ("city", VStr "Null Island")]
           0 (798612 # 10000)); reflexivity.
Defined.

End LocationProps.

(* ================================================================== *)
(** * The extraction of one search                                      *)
(* ================================================================== *)

Module ScraperProps.

Import Models Scraper Notions.
Local Open Scope string_scope.
Local Open Scope list_scope.

(** ** The result object *)

Lemma fold_add_business (l : list Business) (r : SearchResult) :
  businesses (fold_left add_business l r) = businesses r ++ l /\
  parameters (fold_left add_business l r) = parameters r /\
  success (fold_left add_business l r) = success r /\
  error_message (fold_left add_business l r) = error_message r /\
  search_time (fold_left add_business l r) = search_time r /\
  (total_found r = Py.len (businesses r) ->
   total_found (fold_left add_business l r) =
     Py.len (businesses (fold_left add_business l r))).
Proof.
  revert r. induction l as [|b l IH]; intros r; cbn [fold_left].
  - rewrite app_nil_r. repeat split; auto.
  - destruct (IH (add_business r b)) as [Hb [Hp [Hs [He [Ht Hn]]]]].
    split; [rewrite Hb; cbn [add_business businesses]; rewrite <- app_assoc;
            reflexivity|].
    split; [rewrite Hp; reflexivity|]. split; [rewrite Hs; reflexivity|].
    split; [rewrite He; reflexivity|]. split; [rewrite Ht; reflexivity|].
    intros _. apply Hn. reflexivity.
Qed.

Lemma slice_to_length {A : Type} (n : Z) (l : list A) :
  (0 <= n)%Z -> (Py.len (Py.slice_to n l) <= n)%Z.
Proof.
  intros Hn. unfold Py.slice_to, Py.len.
  destruct (0 <=? n)%Z eqn:E; [|apply Z.leb_gt in E; lia].
  rewrite length_firstn. lia.
Qed.

Lemma slice_to_In {A : Type} (n : Z) (l : list A) (x : A) :
  In x (Py.slice_to n l) -> In x l.
Proof.
  unfold Py.slice_to. destruct (0 <=? n)%Z; intros H.
  - rewrite <- (firstn_skipn (Z.to_nat n) l). apply in_or_app. left. exact H.
  - rewrite <- (firstn_skipn (Z.to_nat (Z.of_nat (List.length l) + n)) l).
    apply in_or_app. left. exact H.
Qed.

(** The businesses of a session result, by the outcome of the session. *)
Lemma session_result_businesses (page : Browser) (k : nat) (params : SearchParameters) :
  businesses (session_result page k params) =
    match outcome (page k params) with
    | Extracted feed => Py.slice_to (max_results params) feed
    | Failed _ => []
    end.
Proof.
  unfold session_result. cbv zeta. destruct (outcome (page k params)) as [feed|msg].
  - cbn [businesses].
    destruct (fold_add_business (Py.slice_to (max_results params) feed)
                (SearchResult_new params)) as [Hb _].
    rewrite Hb. reflexivity.
  - reflexivity.
Qed.

(** X17. What [search_businesses] returns, whatever the session does: the
    parameters it was given, the time the session took, [total_found]
    equal to the number of businesses, and never more businesses than a
    non-negative [max_results]; after a failure the list is empty,
    [success] is false and the message is recorded, otherwise [success] is
    true and there is no message.  The search is logged. *)
Theorem search_businesses_result (page : Browser) (params : SearchParameters)
    (w : World) :
  let result := fst (search_businesses page params w) in
  snd (search_businesses page params w) = w ++ [params] /\
  parameters result = params /\
  search_time result = elapsed (page (List.length w) params) /\
  total_found result = Py.len (businesses result) /\
  ((0 <= max_results params)%Z ->
   (Py.len (businesses result) <= max_results params)%Z) /\
  match outcome (page (List.length w) params) with
  | Extracted feed =>
      businesses result = Py.slice_to (max_results params) feed /\
      success result = true /\ error_message result = None
  | Failed message =>
      businesses result = [] /\
      success result = false /\ error_message result = Some message
  end.
Proof.
  cbv zeta. unfold search_businesses. cbn [fst snd].
  split; [reflexivity|].
  pose proof (session_result_businesses page (List.length w) params) as Hb.
  unfold session_result in *. cbv zeta in *.
  destruct (outcome (page (List.length w) params)) as [feed|msg].
  - destruct (fold_add_business (Py.slice_to (max_results params) feed)
                (SearchResult_new params)) as [Hbs [Hp [Hs [He [Ht Hn]]]]].
    cbn [parameters search_time total_found businesses success error_message] in *.
    rewrite Hp, Hs, He, Hbs, (Hn eq_refl), Hbs.
    cbn [SearchResult_new parameters businesses success error_message app].
    repeat split; try reflexivity. intros Hm. apply slice_to_length, Hm.
  - cbn [parameters search_time total_found businesses success error_message
         SearchResult_new].
    repeat split; try reflexivity. intros Hm. exact Hm.
Qed.

(** ** The listings of one search *)

Lemma business_of_item_kept (item : ResultItem) (b : Business) :
  business_of_item item = Some b -> kept_business b.
Proof.
  destruct item as [|title|title clock details]; try discriminate.
  unfold business_of_item.
  set (business := _extract_business_details (Business_new (Py.strip title) clock)
                     details).
  destruct (phone_numbers business) as [|p ps] eqn:E; [discriminate|].
  intros [= <-]. split; [rewrite E; discriminate|].
  apply Forall_forall. intros q Hq. unfold business in Hq.
  cbn [_extract_business_details phone_numbers Business_new app] in Hq.
  destruct (d_phone_text details) as [text|]; [|contradiction].
  apply (ExtractionProps.attached_phone_facts (Py.strip text) q Hq).
Qed.

Lemma extract_visible_kept (items : list ResultItem) (businesses : list Business) :
  Forall kept_business businesses ->
  Forall kept_business (_extract_visible_businesses items businesses).
Proof.
  intros H. unfold _extract_visible_businesses. apply Forall_app. split; [exact H|].
  apply Forall_forall. intros b Hb. apply in_flat_map in Hb as [item [_ Hb]].
  destruct (business_of_item item) as [b'|] eqn:E; [|contradiction].
  destruct Hb as [<-|[]]. apply (business_of_item_kept item b' E).
Qed.

Lemma scroll_rounds_kept (feed : Feed) (max_results : Z) (rounds i : nat)
    (businesses : list Business) :
  Forall kept_business businesses ->
  Forall kept_business (scroll_rounds feed max_results rounds i businesses).
Proof.
  revert i businesses. induction rounds as [|rounds IH]; intros i businesses H;
    cbn [scroll_rounds]; [exact H|].
  destruct (feed i) as [items|]; [|exact H]. cbv zeta.
  pose proof (extract_visible_kept items businesses H) as H'.
  destruct (_ || _); [exact H'|apply IH, H'].
Qed.

Lemma scroll_rounds_ext (feed feed' : Feed) (max_results : Z) (rounds i : nat)
    (businesses : list Business) :
  (forall k, (i <= k < i + rounds)%nat -> feed k = feed' k) ->
  scroll_rounds feed max_results rounds i businesses =
  scroll_rounds feed' max_results rounds i businesses.
Proof.
  revert i businesses. induction rounds as [|rounds IH]; intros i businesses H;
    cbn [scroll_rounds]; [reflexivity|].
  rewrite <- (H i) by lia. destruct (feed i) as [items|]; [|reflexivity]. cbv zeta.
  destruct (_ || _); [reflexivity|]. apply IH. intros k Hk. apply H. lia.
Qed.

Lemma scrolls_needed_bound (max_results : Z) :
  (Z.to_nat (Z.min 20 (max_results / 5)) <= 20)%nat.
Proof. lia. Qed.

(** X18. Below five requested results nothing is extracted: the number of
    scroll rounds, [min(20, max_results // 5)], is then zero and the feed
    is never read. *)
Theorem extract_businesses_below_five (feed : Feed) (max_results : Z) :
  (max_results < 5)%Z -> _extract_businesses feed max_results = [].
Proof.
  intros H. unfold _extract_businesses, scrolled. cbv zeta.
  assert (Hq : (max_results / 5 <= 0)%Z).
  { apply Z.lt_succ_r. apply Z.div_lt_upper_bound; lia. }
  replace (Z.to_nat (Z.min 20 (max_results / 5))) with 0%nat by lia.
  cbn [scroll_rounds]. unfold Py.slice_to. destruct (0 <=? max_results)%Z;
    apply firstn_nil.
Qed.

Lemma extract_businesses_below_five_witness :
  _extract_businesses
    (fun _ => Some [Opened "Cafe X" 0
                      (mkDetails None None None (Some "0712345678") None None None)])
    4 = [].
Proof.
  apply (extract_businesses_below_five
           (fun _ => Some [Opened "Cafe X" 0
                             (mkDetails None None None (Some "0712345678") None None None)])
           4).
  reflexivity.
Defined.

(** X19. Whatever the feed shows, every business that [_extract_businesses]
    returns has at least one phone number, and each of its phone numbers
    is validated, is +94 followed by nine digits, has no region, and is
    mobile with a mobile prefix or has an area code starting with 0; there
    are never more businesses than a non-negative [max_results]; and the
    feed is read at most twenty times. *)
Theorem extract_businesses_kept (feed : Feed) (max_results : Z) :
  Forall kept_business (_extract_businesses feed max_results) /\
  ((0 <= max_results)%Z ->
   (Py.len (_extract_businesses feed max_results) <= max_results)%Z) /\
  (forall feed' : Feed,
     (forall k, (k < 20)%nat -> feed k = feed' k) ->
     _extract_businesses feed max_results = _extract_businesses feed' max_results).
Proof.
  split; [|split].
  - apply Forall_forall. intros b Hb. apply slice_to_In in Hb.
    pose proof (scroll_rounds_kept feed max_results
                  (Z.to_nat (Z.min 20 (max_results / 5))) 0 [] (Forall_nil _)) as H.
    rewrite Forall_forall in H. apply H. exact Hb.
  - apply slice_to_length.
  - intros feed' H. unfold _extract_businesses, scrolled. cbv zeta. f_equal.
    apply scroll_rounds_ext. intros k Hk. apply H.
    pose proof (scrolls_needed_bound max_results). lia.
Qed.

Lemma scroll_rounds_same_listing (item : ResultItem) (b : Business)
    (max_results : Z) (rounds i : nat) (businesses : list Business) :
  business_of_item item = Some b ->
  (Py.len businesses + Z.of_nat rounds < max_results)%Z ->
  scroll_rounds (fun _ => Some [item]) max_results rounds i businesses =
  businesses ++ repeat b rounds.
Proof.
  intros Hb. revert i businesses. unfold Py.len.
  induction rounds as [|rounds IH]; intros i businesses H; cbn [scroll_rounds repeat].
  - rewrite app_nil_r. reflexivity.
  - cbv zeta. unfold _extract_visible_businesses. cbn [flat_map]. rewrite Hb.
    cbn [app]. unfold Py.len. rewrite length_app. cbn [List.length].
    replace (max_results <=? Z.of_nat (List.length businesses + 1))%Z with false
      by (symmetry; apply Z.leb_gt; lia).
    replace (Z.of_nat (List.length businesses + 1) =? Z.of_nat (List.length businesses))%Z
      with false by (symmetry; apply Z.eqb_neq; lia).
    cbn [orb]. rewrite IH by (rewrite length_app; cbn [List.length]; lia).
    rewrite <- app_assoc. reflexivity.
Qed.

(** X20. Nothing is deduplicated within one search: when the feed shows the
    same listing at every round, the business is returned once per round,
    that is [min(20, max_results // 5)] times, fewer than [max_results]. *)
Theorem extract_businesses_same_listing (item : ResultItem) (b : Business)
    (max_results : Z) :
  business_of_item item = Some b ->
  (5 <= max_results)%Z ->
  _extract_businesses (fun _ => Some [item]) max_results =
    repeat b (Z.to_nat (Z.min 20 (max_results / 5))).
Proof.
  intros Hb Hm. unfold _extract_businesses, scrolled. cbv zeta.
  assert (Hq : (max_results / 5 < max_results)%Z)
    by (apply Z.div_lt_upper_bound; lia).
  rewrite (scroll_rounds_same_listing item b) by (try exact Hb; unfold Py.len; simpl; lia).
  cbn [app]. unfold Py.slice_to.
  replace (0 <=? max_results)%Z with true by (symmetry; apply Z.leb_le; lia).
  apply firstn_all2. rewrite repeat_length. lia.
Qed.

Lemma extract_businesses_same_listing_witness :
  _extract_businesses
    (fun _ => Some [Opened "Cafe X" 0
                      (mkDetails None None None (Some "0712345678") None None None)])
    10 =
  repeat (mkBusiness "Cafe X" [mkPhoneNumber "+94712345678" (Some true) true None]
            None None None None None None None 0)
         (Z.to_nat (Z.min 20 (10 / 5))).
Proof.
  apply (extract_businesses_same_listing
           (Opened "Cafe X" 0
              (mkDetails None None None (Some "0712345678") None None None))).
  - reflexivity.
  - discriminate.
Defined.

End ScraperProps.

(* ================================================================== *)
(** * The combined result of a search                                   *)
(* ================================================================== *)

Module SearchProps.

Import Models Settings Scraper Main Notions.
Local Open Scope string_scope.
Local Open Scope list_scope.

(** ** Merging, once more *)





(** ** The fields that the loop leaves alone *)

Lemma merge_business_fields (combined : SearchResult) (b : Business) :
  other_fields (merge_business combined b) = other_fields combined.
Proof. unfold merge_business. destruct (negb _); reflexivity. Qed.

Lemma fold_merge_business_fields (l : list Business) (combined : SearchResult) :
  other_fields (fold_left merge_business l combined) = other_fields combined.
Proof.
  revert combined. induction l as [|b l IH]; intros combined; [reflexivity|].
  cbn [fold_left]. rewrite IH. apply merge_business_fields.
Qed.

Lemma search_cells_fields (page : Browser) (params : SearchParameters)
    (cells : list Helpers.Cell) (combined : SearchResult) (w : World) :
  other_fields (fst (search_cells page params cells combined w)) =
  other_fields combined.
Proof.
  revert combined w. induction cells as [|c cs IH]; intros combined w;
    [reflexivity|].
  cbn [search_cells]. unfold search_businesses.
  destruct (max_results params <=? _)%Z; cbn [fst].
  - apply fold_merge_business_fields.
  - rewrite IH. apply fold_merge_business_fields.
Qed.

Lemma search_subdivided_fields (config : Config) (page : Browser)
    (params : SearchParameters) (w w' : World) (combined : SearchResult) :
  _search_subdivided_area config page params w = Py.Ok (combined, w') ->
  other_fields combined = other_fields (SearchResult_new params).
Proof.
  intros Hrun. rewrite OrchestratorProps.search_subdivided_unfold in Hrun.
  destruct (cells_of config params) as [cells|e]; [|discriminate Hrun].
  injection Hrun as Hrun. apply (f_equal fst) in Hrun. cbn [fst] in Hrun.
  rewrite <- Hrun. apply search_cells_fields.
Qed.

(** The run of the subdivided search within the threshold. *)
Lemma search_subdivided_whole (config : Config) (page : Browser)
    (params : SearchParameters) (w : World) :
  radius_km params <= subdivision_threshold config ->
  exists combined : SearchResult,
    _search_subdivided_area config page params w =
      Py.Ok (combined, w ++ [sub_params_of params (whole_cell params)]) /\
    businesses combined =
      merge [] (businesses (session_result page (List.length w)
                              (sub_params_of params (whole_cell params)))) /\
    total_found combined = Py.len (businesses combined).
Proof.
  intros Hle. rewrite OrchestratorProps.search_subdivided_unfold.
  destruct (OrchestratorProps.cells_of_outcomes config params)
    as [[_ ->]|[Hlt _]]; [|exfalso; apply (Qlt_not_le _ _ Hlt Hle)].
  destruct (OrchestratorProps.search_cells_single page params (whole_cell params) w)
    as [combined [Hrun [Hb Ht]]].
  exists combined. rewrite Hrun. auto.
Qed.

(** ** The subdivided search within the threshold *)



(** X24. Called with a radius within the threshold,
    [_search_subdivided_area] returns a result that carries the original
    parameters, [success] true, no error message and a search time of
    zero, whatever the one search reported; when that search failed the
    result is the empty one, and the failure and its message are lost. *)
Theorem search_subdivided_reports_success (config : Config) (page : Browser)
    (params : SearchParameters) (w : World) :
  radius_km params <= subdivision_threshold config ->
  exists (combined : SearchResult) (w' : World),
    _search_subdivided_area config page params w = Py.Ok (combined, w') /\
    parameters combined = params /\
    success combined = true /\
    error_message combined = None /\
    search_time combined = 0 /\
    (forall message : string,
       outcome (page (List.length w) (sub_params_of params (whole_cell params))) =
         Failed message ->
       businesses combined = [] /\ total_found combined = 0%Z).
Proof.
  intros Hle.
  destruct (search_subdivided_whole config page params w Hle)
    as [combined [Hrun [Hb Ht]]].
  eexists combined, _. split; [exact Hrun|].
  pose proof (search_subdivided_fields _ _ _ _ _ _ Hrun) as Hf.
  unfold other_fields in Hf. cbn [SearchResult_new parameters success error_message
    search_time] in Hf. injection Hf as Hp Hs He Hq.
  split; [exact Hp|]. split; [exact Hs|]. split; [exact He|].
  split; [rewrite Hq; reflexivity|].
  intros message Hfail.
  rewrite ScraperProps.session_result_businesses, Hfail in Hb.
  change (merge [] []) with (@nil Business) in Hb.
  split; [exact Hb|]. rewrite Ht, Hb. reflexivity.
Qed.

Lemma search_subdivided_reports_success_witness :
  exists (combined : SearchResult) (w' : World),
    _search_subdivided_area DEFAULT_CONFIG (browser_of crashed_pages)
      (near_search 10) [] = Py.Ok (combined, w') /\
    parameters combined = near_search 10 /\
    success combined = true /\
    error_message combined = None /\
    search_time combined = 0 /\
    businesses combined = [] /\
    total_found combined = 0%Z /\
    success (session_result (browser_of crashed_pages) 0
               (sub_params_of (near_search 10) (whole_cell (near_search 10)))) =
      false.
Proof.
  destruct (search_subdivided_reports_success DEFAULT_CONFIG
              (browser_of crashed_pages) (near_search 10) [])
    as [combined [w' [Hrun [Hp [Hs [He [Hq Hfail]]]]]]]; [discriminate|].
  destruct (Hfail "Could not find search box" eq_refl) as [Hb Ht].
  exists combined, w'. repeat split; assumption || reflexivity.
Defined.

(** ** From the pages to the result of a search *)

Lemma response_kept (pages : Pages) (k : nat) (sp : SearchParameters) :
  Forall kept_business (businesses (session_result (browser_of pages) k sp)).
Proof.
  rewrite ScraperProps.session_result_businesses. unfold browser_of.
  destruct (pages k sp) as [[message|feed] seconds]; cbn [outcome];
    [constructor|].
  apply Forall_forall. intros b Hb. apply ScraperProps.slice_to_In in Hb.
  pose proof (ScraperProps.scroll_rounds_kept feed (max_results sp)
                (Z.to_nat (Z.min 20 (max_results sp / 5))) 0 [] (Forall_nil _)) as H.
  rewrite Forall_forall in H. apply H. exact Hb.
Qed.

(** A search that returns went the direct way. *)
Lemma search_returns_direct (config : Config) (page : Browser) (query : string)
    (location : LocationInput) (radius_km : option Q) (max_results : option Z)
    (w w' : World) (result : SearchResult) :
  search config page query location radius_km max_results w =
    Py.Ok (result, w') ->
  exists params : SearchParameters,
    result = session_result page (List.length w) params /\
    w' = w ++ [params].
Proof.
  unfold search.
  destruct (_process_location config location) as [location_obj|e];
    cbn [Py.bind]; [|discriminate].
  set (params := SearchParameters_new _ _ _ _).
  destruct (Qle_bool _ _) eqn:E; cbn [negb].
  - unfold search_businesses. intros [= <- <-]. exists params. auto.
  - intros Hrun. rewrite OrchestratorProps.search_subdivided_unfold in Hrun.
    destruct (OrchestratorProps.cells_of_outcomes config params)
      as [[Hle _]|[_ Hraise]].
    + apply Qle_bool_iff in Hle. cbn [Models.radius_km params SearchParameters_new] in Hle.
      congruence.
    + rewrite Hraise in Hrun. discriminate Hrun.
Qed.

Lemma search_kept (config : Config) (pages : Pages) (query : string)
    (location : LocationInput) (radius_km : option Q) (max_results : option Z)
    (w w' : World) (result : SearchResult) :
  search config (browser_of pages) query location radius_km max_results w =
    Py.Ok (result, w') ->
  Forall kept_business (businesses result).
Proof.
  intros Hrun. apply search_returns_direct in Hrun as [params [-> _]].
  apply response_kept.
Qed.

(** X26. Whatever the pages show, a search that returns a result returns
    only businesses that have at least one phone number, each of them a
    validated twelve-character +94 number without a region. *)
Theorem search_results_kept (config : Config) (pages : Pages) (query : string)
    (location : LocationInput) (radius_km : option Q) (max_results : option Z)
    (w w' : World) (result : SearchResult) :
  search config (browser_of pages) query location radius_km max_results w =
    Py.Ok (result, w') ->
  Forall kept_business (businesses result).
Proof. apply search_kept. Qed.

Lemma search_results_kept_witness :
  exists (result : SearchResult) (w' : World),
    search DEFAULT_CONFIG (browser_of cafe_pages) "cafe" (LocStr "Kandy")
      (Some (5 # 1)) (Some 10%Z) [] = Py.Ok (result, w') /\
    businesses result <> [] /\
    Forall kept_business (businesses result).
Proof.
  eexists _, _. split; [vm_compute; reflexivity|].
  split; [discriminate|].
  eapply (search_results_kept DEFAULT_CONFIG cafe_pages "cafe" (LocStr "Kandy")
            (Some (5 # 1)) (Some 10%Z) []).
  vm_compute; reflexivity.
Defined.

End SearchProps.

(* ================================================================== *)
(** * The saved files                                                  *)
(* ================================================================== *)

Module SavingProps.

Import Models Settings Scraper Notions.
Import Saving.
Local Open Scope string_scope.
Local Open Scope list_scope.

(** ** Rows and field names *)









Section Files.

Variable isoformat : Z -> string.
Variable strftime : Z -> string.
Variable path_join : string -> string -> string.





End Files.




(** ** Saving the result of a search *)




End SavingProps.
